(** * EIP bootstrapper: a model of [leap/services/eip/eipbootstrapper.py]

    The module defines one class, [EIPBootstrapper], a worker thread that
    runs a queue of checks: [_download_config], then
    [_download_client_certificates].  Each check reports a dict
    [{"passed": bool, "error": str}] through a Qt signal and returns the
    [passed] flag; [run] pops the checks one by one and clears the queue when
    one of them returns [False].

    The model is sequential.  A method of the class is a function from the
    state of the object and of its surroundings (file system, network) to a
    result (a value or a raised exception), the state it leaves and the
    events it produced, in program order.  The collaborators the module
    imports but does not define ([requests], [os], [EIPConfig]) are an
    interface, [Collaborators]; every statement holds for every
    implementation of it.

    Not modelled: [logger.debug] calls (no effect on the object), the thread
    itself ([start], and [set_should_quit] whose [wait] blocks on the worker
    thread), and delivery of a queued Qt signal in the receiving thread (an
    [emit] is an event of the worker thread's log).  Assertions are enabled
    (no [python -O]). *)

From Stdlib Require Import String Ascii List ZArith Bool Lia.
Import ListNotations.
Open Scope string_scope.

Set Implicit Arguments.

(** ** Python values the module handles *)

(** Exception classes that matter to the handlers of the module.
    [except Exception] catches all of them but the last three, which derive
    from [BaseException] only; [except OSError] catches [OSError]. *)
Inductive ExnClass :=
| AssertionError
| OSError
| IOError
| HTTPError
| ConnectionError
| OtherException
| SystemExit
| KeyboardInterrupt
| GeneratorExit.

(** An exception object: its class, its [errno] attribute (where it has
    one) and [str(e)]. *)
Record exn := mkExn {
  exn_class : ExnClass;
  exn_errno : option Z;
  exn_str   : string
}.

(** [isinstance(e, Exception)] *)
Definition is_Exception (e : exn) : bool :=
  match exn_class e with
  | SystemExit | KeyboardInterrupt | GeneratorExit => false
  | _ => true
  end.

(** [isinstance(e, OSError)] *)
Definition is_OSError (e : exn) : bool :=
  match exn_class e with
  | OSError => true
  | _ => false
  end.

(** [errno.EEXIST] *)
Definition EEXIST : Z := 17.

(** The provider context: what the four getters of [ProviderConfig] that the
    module calls return, for a loaded provider. *)
Record ProviderConfig := mkProviderConfig {
  get_domain       : string;
  get_api_uri      : string;
  get_api_version  : string;
  get_ca_cert_path : string
}.

(** What a caller may pass as [provider_config]: [None], a [ProviderConfig],
    or an object of another type, with its truth value and the [repr] of its
    type. *)
Inductive PyObj :=
| PyNone
| PyProviderConfig (pc : ProviderConfig)
| PyOther (truthy : bool) (type_repr : string).

(** Truth value of an object, as [assert x] tests it. *)
Definition truth (o : PyObj) : bool :=
  match o with
  | PyNone => false
  | PyProviderConfig _ => true
  | PyOther b _ => b
  end.

(** "All dicts returned are of the form [{"passed": bool, "error": str}]". *)
Record CheckData := mkData {
  passed : bool;
  error  : string
}.

Definition set_passed (b : bool) (d : CheckData) : CheckData :=
  {| passed := b; error := error d |}.

Definition set_error (m : string) (d : CheckData) : CheckData :=
  {| passed := passed d; error := m |}.

(** The two signals of the class. *)
Inductive Signal := download_config | download_client_certificate.

(** The two bound methods that [run_eip_setup_checks] puts in the queue. *)
Inductive Check := DownloadConfig | DownloadClientCertificates.

(** The two mutexes of the object. *)
Inductive Lock := ChecksLock | ShouldQuitLock.

Definition IDLE_SLEEP_INTERVAL : Z := 100.

(** A response of [session.get]. *)
Record Response := mkResponse {
  status_code : Z;
  content     : string
}.

(** ** Strings and paths *)

(** [tmpl % args], for templates whose only conversions are [%s] and
    arguments that are strings.  The templates of the module have as many
    conversions as arguments; a conversion without argument is left as it
    is (Python raises [TypeError]). *)
Fixpoint format (tmpl : string) (args : list string) : string :=
  match tmpl with
  | EmptyString => EmptyString
  | String c rest =>
      if (c =? "%")%char then
        match rest with
        | String c2 rest2 =>
            if (c2 =? "s")%char then
              match args with
              | a :: args' => a ++ format rest2 args'
              | [] => String c (String c2 (format rest2 args))
              end
            else String c (format rest args)
        | EmptyString => String c EmptyString
        end
      else String c (format rest args)
  end.

Definition startswith_slash (s : string) : bool :=
  match s with
  | String c _ => (c =? "/")%char
  | EmptyString => false
  end.

Fixpoint endswith_slash (s : string) : bool :=
  match s with
  | EmptyString => false
  | String c EmptyString => (c =? "/")%char
  | String _ rest => endswith_slash rest
  end.

(** One round of the loop of [posixpath.join]. *)
Definition join_step (path b : string) : string :=
  if startswith_slash b then b
  else if (path =? "") || endswith_slash path then path ++ b
  else path ++ "/" ++ b.

(** [os.path.join(a, *p)] on a POSIX system. *)
Definition os_path_join (a : string) (p : list string) : string :=
  fold_left join_step p a.

Definition is_slash (c : ascii) : bool := (c =? "/")%char.

Fixpoint dropwhile (f : ascii -> bool) (l : list ascii) : list ascii :=
  match l with
  | [] => []
  | c :: l' => if f c then dropwhile f l' else l
  end.

(** [os.path.dirname(p)] on a POSIX system: the part up to the last slash,
    without its trailing slashes unless it consists of slashes only. *)
Definition os_path_dirname (p : string) : string :=
  let head := rev (dropwhile (fun c => negb (is_slash c))
                             (rev (list_ascii_of_string p))) in
  if forallb is_slash head then string_of_list_ascii head
  else string_of_list_ascii (rev (dropwhile is_slash (rev head))).

(** ** The collaborators

    [requests], [os] and [EIPConfig] are imported, not defined, by the
    module.  [FS] is the state of the file system, [Net] that of the network
    and of the session; an operation that can fail returns the state it
    leaves together with the exception it raised, if any. *)
Class Collaborators := {
  FS : Type;
  Net : Type;
  EIPConfig : Type;
  (** [EIPConfig()] *)
  EIPConfig_new : EIPConfig;
  (** [cfg.get_path_prefix()] *)
  get_path_prefix : EIPConfig -> string;
  (** [cfg.load(data=d)]: the object after the call, and what was raised *)
  eip_load : EIPConfig -> string -> EIPConfig * option exn;
  (** [cfg.save(path_list)] *)
  eip_save : EIPConfig -> list string -> FS -> FS * option exn;
  (** [cfg.get_client_cert_path(pc, about_to_download=b)] *)
  get_client_cert_path : EIPConfig -> ProviderConfig -> bool -> FS -> exn + string;
  (** [os.path.exists(p)], [os.path.isdir(p)] *)
  os_path_exists : FS -> string -> bool;
  os_path_isdir : FS -> string -> bool;
  (** [os.makedirs(p)] *)
  os_makedirs : string -> FS -> FS * option exn;
  (** [with open(p, "w") as f: f.write(c)] *)
  write_file : string -> string -> FS -> FS * option exn;
  (** [session.get(url, verify=ca)] *)
  session_get : string -> string -> Net -> Net * (exn + Response);
  (** [res.raise_for_status()] *)
  raise_for_status : Response -> option exn
}.

Section Bootstrapper.

Context {W : Collaborators}.

(** ** State *)

(** The attributes of an [EIPBootstrapper] that the methods read or write
    ([_session] and the two mutexes never change). *)
Record EIPBootstrapper := mkSelf {
  _checks             : list Check;
  _should_quit        : bool;
  _provider_config    : option ProviderConfig;
  _eip_config         : option EIPConfig;
  _download_if_needed : bool
}.

(** [__init__] *)
Definition init : EIPBootstrapper :=
  {| _checks := [];
     _should_quit := false;
     _provider_config := None;
     _eip_config := None;
     _download_if_needed := false |}.

Record State := mkState {
  self : EIPBootstrapper;
  fs   : FS;
  net  : Net
}.

(** What a method does that can be seen from outside the object, in program
    order.  [EvCall] and [EvReturn] mark the call [check()] in [run] and its
    return. *)
Inductive Event :=
| EvGet (url verify : string)
| EvLoad (data : string)
| EvSave (path_list : list string)
| EvCertPath (cfg : EIPConfig) (pc : ProviderConfig) (about_to_download : bool)
| EvMakedirs (path : string)
| EvWrite (path data : string)
| EvEmit (sig : Signal) (d : CheckData)
| EvLock (l : Lock)
| EvUnlock (l : Lock)
| EvUsleep (usec : Z)
| EvCall (c : Check)
| EvReturn (c : Check) (b : bool).

(** ** A monad for methods: state, exceptions and a log of events *)

Record Outcome (A : Type) := mkOut {
  result : exn + A;
  final  : State;
  events : list Event
}.

Definition M (A : Type) : Type := State -> Outcome A.

Definition ret {A} (a : A) : M A :=
  fun s => mkOut (inr a) s [].

Definition raise {A} (e : exn) : M A :=
  fun s => mkOut (inl e) s [].

Definition bind {A B} (m : M A) (k : A -> M B) : M B :=
  fun s =>
    match m s with
    | mkOut (inl e) s1 t => mkOut (inl e) s1 t
    | mkOut (inr a) s1 t =>
        match k a s1 with
        | mkOut r s2 t' => mkOut r s2 (t ++ t')
        end
    end.

Notation "x <- m ;; k" := (bind m (fun x => k))
  (at level 61, m at next level, right associativity).
Notation "m ;; k" := (bind m (fun _ => k))
  (at level 61, right associativity).

(** [try: m  except <class> as e: h e], [catches] being the [isinstance]
    test of the class *)
Definition try_except {A} (catches : exn -> bool) (m : M A) (h : exn -> M A) : M A :=
  fun s =>
    match m s with
    | mkOut (inl e) s1 t =>
        if catches e then
          match h e s1 with
          | mkOut r s2 t' => mkOut r s2 (t ++ t')
          end
        else mkOut (inl e) s1 t
    | mkOut (inr a) s1 t => mkOut (inr a) s1 t
    end.

(** [try: m  finally: f], for an [f] that raises nothing *)
Definition finally {A} (m : M A) (f : M unit) : M A :=
  fun s =>
    match m s with
    | mkOut r s1 t =>
        match f s1 with
        | mkOut _ s2 t' => mkOut r s2 (t ++ t')
        end
    end.

Definition log (e : Event) : M unit :=
  fun s => mkOut (inr tt) s [e].

Definition get_self : M EIPBootstrapper :=
  fun s => mkOut (inr (self s)) s [].

Definition put_self (b : EIPBootstrapper) : M unit :=
  fun s => mkOut (inr tt) {| self := b; fs := fs s; net := net s |} [].

Definition get_fs : M FS :=
  fun s => mkOut (inr (fs s)) s [].

(** [assert c, msg] *)
Definition assert (c : bool) (msg : string) : M unit :=
  if c then ret tt else raise (mkExn AssertionError None msg).

(** A file-system operation of the collaborators, as a method step. *)
Definition lift_fs (op : FS -> FS * option exn) : M unit :=
  fun s =>
    let (fs', r) := op (fs s) in
    mkOut (match r with Some e => inl e | None => inr tt end)
          {| self := self s; fs := fs'; net := net s |} [].

Definition set_checks (q : list Check) (b : EIPBootstrapper) : EIPBootstrapper :=
  {| _checks := q;
     _should_quit := _should_quit b;
     _provider_config := _provider_config b;
     _eip_config := _eip_config b;
     _download_if_needed := _download_if_needed b |}.

Definition set_eip_config (c : option EIPConfig) (b : EIPBootstrapper) : EIPBootstrapper :=
  {| _checks := _checks b;
     _should_quit := _should_quit b;
     _provider_config := _provider_config b;
     _eip_config := c;
     _download_if_needed := _download_if_needed b |}.

Definition set_provider (pc : ProviderConfig) (flag : bool) (b : EIPBootstrapper)
  : EIPBootstrapper :=
  {| _checks := _checks b;
     _should_quit := _should_quit b;
     _provider_config := Some pc;
     _eip_config := _eip_config b;
     _download_if_needed := flag |}.

(** [self.<signal>.emit(d)] *)
Definition emit (sig : Signal) (d : CheckData) : M unit :=
  log (EvEmit sig d).

(** [with QtCore.QMutexLocker(l): m] *)
Definition with_lock {A} (l : Lock) (m : M A) : M A :=
  log (EvLock l) ;; finally m (log (EvUnlock l)).

(** [QtCore.QMutexLocker(l)] as a statement of its own: the locker is bound
    to no name and is destroyed, unlocking, when the statement ends. *)
Definition locker_statement (l : Lock) : M unit :=
  log (EvLock l) ;; log (EvUnlock l).


(** ** The methods *)

(** [get_should_quit] *)
Definition get_should_quit : M bool :=
  locker_statement ShouldQuitLock ;;
  b <- get_self ;;
  ret (_should_quit b).

(** [self._session.get(url, verify=verify)] *)
Definition http_get (url verify : string) : M Response :=
  log (EvGet url verify) ;;
  fun s =>
    let (net', r) := session_get url verify (net s) in
    mkOut r {| self := self s; fs := fs s; net := net' |} [].

(** [res.raise_for_status()] *)
Definition check_status (res : Response) : M unit :=
  match raise_for_status res with
  | Some e => raise e
  | None => ret tt
  end.

(** What Python raises for [None.attr]. *)
Definition none_has_no (attr : string) : exn :=
  mkExn OtherException None ("'NoneType' object has no attribute '" ++ attr ++ "'").

(** [self._eip_config.load(data=d)]; the object is changed in place *)
Definition load_eip_config (d : string) : M unit :=
  b <- get_self ;;
  match _eip_config b with
  | None => raise (none_has_no "load")
  | Some cfg =>
      log (EvLoad d) ;;
      let (cfg', r) := eip_load cfg d in
      put_self (set_eip_config (Some cfg') b) ;;
      match r with
      | Some e => raise e
      | None => ret tt
      end
  end.

(** [self._eip_config.save(path_list)] *)
Definition save_eip_config (path_list : list string) : M unit :=
  b <- get_self ;;
  match _eip_config b with
  | None => raise (none_has_no "save")
  | Some cfg => log (EvSave path_list) ;; lift_fs (eip_save cfg path_list)
  end.

(** The file whose presence lets [_download_config] skip the download. *)
Definition config_path (cfg : EIPConfig) (pc : ProviderConfig) : string :=
  os_path_join (get_path_prefix cfg)
               ["leap"; "providers"; get_domain pc; "eip-service.json"].

Definition config_url (pc : ProviderConfig) : string :=
  format "%s/%s/%s/%s"
         [get_api_uri pc; get_api_version pc; "config"; "eip-service.json"].

Definition cert_url (pc : ProviderConfig) : string :=
  format "%s/%s/%s/" [get_api_uri pc; get_api_version pc; "cert"].

(** The body of the [try] of [_download_config].  The dict is changed by
    its last statement only, so the handler sees it as it was. *)
Definition config_try (pc : ProviderConfig) (download_config_data : CheckData)
  : M CheckData :=
  res <- http_get (config_url pc) (get_ca_cert_path pc) ;;
  check_status res ;;
  let eip_definition := content res in
  load_eip_config eip_definition ;;
  save_eip_config ["leap"; "providers"; get_domain pc; "eip-service.json"] ;;
  ret (set_passed true download_config_data).

(** [_download_config] *)
Definition _download_config : M bool :=
  b <- get_self ;;
  match _provider_config b with
  | None => raise (mkExn AssertionError None "We need a provider configuration!")
  | Some pc =>
      let download_config_data := mkData false "" in
      put_self (set_eip_config (Some EIPConfig_new) b) ;;
      fs0 <- get_fs ;;
      if _download_if_needed b
         && os_path_exists fs0 (config_path EIPConfig_new pc)
      then
        emit download_config (set_passed true download_config_data) ;;
        ret true
      else
        d <- try_except is_Exception
               (config_try pc download_config_data)
               (fun e => ret (set_error (exn_str e) download_config_data)) ;;
        emit download_config d ;;
        ret (passed d)
  end.

(** [self._eip_config.get_client_cert_path(pc, about_to_download=True)] *)
Definition client_cert_path_of (cfg : EIPConfig) (pc : ProviderConfig) : M string :=
  log (EvCertPath cfg pc true) ;;
  fs0 <- get_fs ;;
  match get_client_cert_path cfg pc true fs0 with
  | inl e => raise e
  | inr p => ret p
  end.

(** The inner [try] of [_download_client_certificates]:
    [os.makedirs(d)], an [OSError] being dropped when its [errno] is
    [EEXIST] and [d] is a directory, and raised again otherwise. *)
Definition makedirs_unless_there (d : string) : M unit :=
  try_except is_OSError
    (log (EvMakedirs d) ;; lift_fs (os_makedirs d))
    (fun e =>
       fs1 <- get_fs ;;
       if match exn_errno e with Some n => (n =? EEXIST)%Z | None => false end
          && os_path_isdir fs1 d
       then ret tt
       else raise e).

(** The body of the outer [try] of [_download_client_certificates]. *)
Definition cert_try (pc : ProviderConfig) (client_cert_path : string)
                    (download_cert : CheckData) : M CheckData :=
  res <- http_get (cert_url pc) (get_ca_cert_path pc) ;;
  check_status res ;;
  let client_cert := content res in
  makedirs_unless_there (os_path_dirname client_cert_path) ;;
  log (EvWrite client_cert_path client_cert) ;;
  lift_fs (write_file client_cert_path client_cert) ;;
  ret (set_passed true download_cert).

(** [_download_client_certificates] *)
Definition _download_client_certificates : M bool :=
  b <- get_self ;;
  match _provider_config b with
  | None => raise (mkExn AssertionError None "We need a provider configuration!")
  | Some pc =>
      match _eip_config b with
      | None => raise (mkExn AssertionError None "We need an eip configuration!")
      | Some cfg =>
          let download_cert := mkData false "" in
          client_cert_path <- client_cert_path_of cfg pc ;;
          fs0 <- get_fs ;;
          if _download_if_needed b && os_path_exists fs0 client_cert_path
          then
            emit download_client_certificate (set_passed true download_cert) ;;
            ret true
          else
            d <- try_except is_Exception
                   (cert_try pc client_cert_path download_cert)
                   (fun e => ret (set_error (exn_str e) download_cert)) ;;
            emit download_client_certificate d ;;
            ret (passed d)
      end
  end.

(** [run_eip_setup_checks(provider_config, download_if_needed)] *)
Definition run_eip_setup_checks (provider_config : PyObj) (download_if_needed : bool)
  : M unit :=
  assert (truth provider_config) "We need a provider config!" ;;
  match provider_config with
  | PyProviderConfig pc =>
      b <- get_self ;;
      put_self (set_provider pc download_if_needed b) ;;
      locker_statement ChecksLock ;;
      b' <- get_self ;;
      put_self (set_checks [DownloadConfig; DownloadClientCertificates] b')
  | PyNone =>
      raise (mkExn AssertionError None
                   "Expected ProviderConfig type, not <type 'NoneType'>")
  | PyOther _ r =>
      raise (mkExn AssertionError None ("Expected ProviderConfig type, not " ++ r))
  end.

(** The method a queue entry is bound to. *)
Definition exec (c : Check) : M bool :=
  match c with
  | DownloadConfig => _download_config
  | DownloadClientCertificates => _download_client_certificates
  end.

(** [shouldContinue = check()] *)
Definition call_check (c : Check) : M bool :=
  log (EvCall c) ;;
  b <- exec c ;;
  log (EvReturn c b) ;;
  ret b.

(** The [with] block of [run]: it gives [checkSomething].  The local
    [shouldContinue] is read in the round that assigned it only. *)
Definition locked_part : M bool :=
  b <- get_self ;;
  match _checks b with
  | [] => ret false
  | check :: rest =>
      put_self (set_checks rest b) ;;
      shouldContinue <- call_check check ;;
      if negb shouldContinue then
        b' <- get_self ;;
        put_self (set_checks [] b') ;;
        ret false
      else ret true
  end.

(** One round of the [while True] of [run]; [true] when [run] returns. *)
Definition run_iteration : M bool :=
  quit <- get_should_quit ;;
  if quit then ret true
  else
    checkSomething <- with_lock ChecksLock locked_part ;;
    (if negb checkSomething then log (EvUsleep IDLE_SLEEP_INTERVAL) else ret tt) ;;
    ret false.

Inductive RunStatus := Returned | StillRunning.

(** [run], for at most [rounds] rounds of its loop. *)
Fixpoint run (rounds : nat) : M RunStatus :=
  match rounds with
  | O => ret StillRunning
  | S n =>
      stop <- run_iteration ;;
      if stop then ret Returned else run n
  end.

(** ** Reading a log of events *)

Definition signal_of (c : Check) : Signal :=
  match c with
  | DownloadConfig => download_config
  | DownloadClientCertificates => download_client_certificate
  end.

Definition Check_eqb (c c' : Check) : bool :=
  match c, c' with
  | DownloadConfig, DownloadConfig => true
  | DownloadClientCertificates, DownloadClientCertificates => true
  | _, _ => false
  end.

Definition Signal_eqb (s s' : Signal) : bool :=
  match s, s' with
  | download_config, download_config => true
  | download_client_certificate, download_client_certificate => true
  | _, _ => false
  end.

(** The work of a check: calls to the network, the file system and the
    configuration object. *)
Definition is_work (e : Event) : bool :=
  match e with
  | EvGet _ _ | EvLoad _ | EvSave _ | EvCertPath _ _ _
  | EvMakedirs _ | EvWrite _ _ => true
  | _ => false
  end.

(** What a round of [run] does when it has no check to run. *)
Definition is_idle (e : Event) : bool :=
  match e with
  | EvLock _ | EvUnlock _ | EvUsleep _ => true
  | _ => false
  end.

Definition is_get (e : Event) : bool :=
  match e with
  | EvGet _ _ => true
  | _ => false
  end.

(** The checks called, in the order of their calls. *)
Fixpoint calls_of (tr : list Event) : list Check :=
  match tr with
  | [] => []
  | EvCall c :: tr' => c :: calls_of tr'
  | _ :: tr' => calls_of tr'
  end.

(** The notifications delivered, in order. *)
Fixpoint emits_of (tr : list Event) : list (Signal * CheckData) :=
  match tr with
  | [] => []
  | EvEmit sig d :: tr' => (sig, d) :: emits_of tr'
  | _ :: tr' => emits_of tr'
  end.

(** Running an automaton over a log; [None] when it rejects. *)
Fixpoint scan {S : Type} (step : S -> Event -> option S) (st : S) (tr : list Event)
  : option S :=
  match tr with
  | [] => Some st
  | e :: tr' =>
      match step st e with
      | Some st' => scan step st' tr'
      | None => None
      end
  end.

(** Where the worker is with respect to the notification of a check:
    between two checks, inside check [c] before its notification, or inside
    [c] after a notification that carried [passed = b]. *)
Inductive Delivery :=
| Outside
| Working (c : Check)
| Reported (c : Check) (b : bool).

(** A check is called between two checks only; it works, then notifies
    once, on its own signal, then returns the flag it notified. *)
Definition delivery_step (st : Delivery) (e : Event) : option Delivery :=
  match e with
  | EvCall c =>
      match st with
      | Outside => Some (Working c)
      | _ => None
      end
  | EvEmit sig d =>
      match st with
      | Working c =>
          if Signal_eqb sig (signal_of c) then Some (Reported c (passed d)) else None
      | _ => None
      end
  | EvReturn c b =>
      match st with
      | Reported c' b' =>
          if Check_eqb c c' && Bool.eqb b b' then Some Outside else None
      | _ => None
      end
  | EvLock _ | EvUnlock _ | EvUsleep _ => Some st
  | _ =>
      match st with
      | Working c => Some st
      | _ => None
      end
  end.

Definition delivery_ok (tr : list Event) : bool :=
  match scan delivery_step Outside tr with
  | Some _ => true
  | None => false
  end.




(** ** Notions the statements use *)

(** The state in which [run] calls the check it popped: the queue holds the
    checks that were behind it. *)
Definition pop_state (rest : list Check) (s : State) : State :=
  {| self := set_checks rest (self s); fs := fs s; net := net s |}.

(** The condition of the first [if] of [_download_config]. *)
Definition skips_config (s : State) (pc : ProviderConfig) : bool :=
  _download_if_needed (self s)
  && os_path_exists (fs s) (config_path EIPConfig_new pc).

(** The condition of the first [if] of [_download_client_certificates], for
    the path [p] that was computed. *)
Definition skips_cert (s : State) (p : string) : bool :=
  _download_if_needed (self s) && os_path_exists (fs s) p.

(** The [OSError] of [os.makedirs(d)] that the inner handler drops, [fs1]
    being the file system the failed call left. *)
Definition tolerated (e : exn) (fs1 : FS) (d : string) : bool :=
  is_OSError e
  && match exn_errno e with Some n => (n =? EEXIST)%Z | None => false end
  && os_path_isdir fs1 d.

(** A call of a check reports [d] on [sig]: it returns the [passed] flag of
    [d], and its events are its work followed by the one notification. *)
Definition reports (o : Outcome bool) (sig : Signal) (d : CheckData) : Prop :=
  result o = inr (passed d)
  /\ exists work, events o = (work ++ [EvEmit sig d])%list
                 /\ forallb is_work work = true.

(** An event a check may produce: work, or a notification on its signal. *)
Definition of_check (c : Check) (e : Event) : bool :=
  is_work e
  || match e with
     | EvEmit sig _ => Signal_eqb sig (signal_of c)
     | _ => false
     end.

(** What one round of [run] logs: the test of [should_quit]; then, with
    the lock of the queue, nothing and a sleep, or a check whose events are
    [w] and that returned [b], or a check that raised after [w]. *)
Definition round_start : list Event :=
  [EvLock ShouldQuitLock; EvUnlock ShouldQuitLock].

Definition idle_round : list Event :=
  round_start
  ++ [EvLock ChecksLock; EvUnlock ChecksLock; EvUsleep IDLE_SLEEP_INTERVAL].

Definition check_round (c : Check) (w : list Event) (b : bool) : list Event :=
  round_start
  ++ [EvLock ChecksLock; EvCall c]
  ++ w
  ++ [EvReturn c b; EvUnlock ChecksLock]
  ++ (if b then [] else [EvUsleep IDLE_SLEEP_INTERVAL]).

Definition aborted_round (c : Check) (w : list Event) : list Event :=
  round_start ++ [EvLock ChecksLock; EvCall c] ++ w ++ [EvUnlock ChecksLock].

(** The logs of [run] from a state whose queue is [q]. *)
Inductive run_log : list Check -> list Event -> Prop :=
| log_out_of_rounds q :
    run_log q []
| log_returned q :
    run_log q round_start
| log_idle t :
    run_log [] t ->
    run_log [] (idle_round ++ t)
| log_check c q w b t :
    forallb (of_check c) w = true ->
    scan delivery_step (Working c) w = Some (Reported c b) ->
    run_log (if b then q else []) t ->
    run_log (c :: q) (check_round c w b ++ t)
| log_aborted c q w :
    forallb (of_check c) w = true ->
    scan delivery_step (Working c) w = Some (Working c) ->
    run_log (c :: q) (aborted_round c w).

(** After a check returned [False] the log has idle events only. *)
Fixpoint halted_after_failure (tr : list Event) : bool :=
  match tr with
  | [] => true
  | EvReturn _ false :: tr' => forallb is_idle tr'
  | _ :: tr' => halted_after_failure tr'
  end.

(** ** The rest of the class *)

Definition set_quit (q : bool) (b : EIPBootstrapper) : EIPBootstrapper :=
  {| _checks := _checks b;
     _should_quit := q;
     _provider_config := _provider_config b;
     _eip_config := _eip_config b;
     _download_if_needed := _download_if_needed b |}.

(** [set_should_quit], on the side of its caller: the locker statement and
    the assignment.  The [self.wait()] that follows blocks the caller until
    [run] has returned in the worker thread. *)
Definition set_should_quit : M unit :=
  locker_statement ShouldQuitLock ;;
  b <- get_self ;;
  put_self (set_quit true b).

(** [start], on the side of its caller: the flag is reset under its lock.
    [QtCore.QThread.start] then has [run] called in the worker thread. *)
Definition start : M unit :=
  with_lock ShouldQuitLock
    (b <- get_self ;;
     put_self (set_quit false b)).

(** The address a check asks for. *)
Definition url_of (c : Check) (pc : ProviderConfig) : string :=
  match c with
  | DownloadConfig => config_url pc
  | DownloadClientCertificates => cert_url pc
  end.

(** Events that store something: in the configuration object or on disk. *)
Definition is_persist (e : Event) : bool :=
  match e with
  | EvLoad _ | EvSave _ | EvMakedirs _ | EvWrite _ _ => true
  | _ => false
  end.

(** In a list of notifications, all but the last carry [passed = True]. *)
Fixpoint failure_is_last (l : list (Signal * CheckData)) : bool :=
  match l with
  | [] => true
  | (_, d) :: l' =>
      match l' with
      | [] => true
      | _ :: _ => passed d && failure_is_last l'
      end
  end.

(** The exception [e] is what a call inside the [try] block of check [c]
    raises in state [s]: the request; [raise_for_status] on its response;
    then, for the configuration, [load] of the body or, [load] having
    raised nothing, [save]; for the certificate, [os.makedirs] with an
    error that the inner handler does not drop or, the directory being
    there, the write. *)
Definition raised_in_try (c : Check) (s : State) (e : exn) : Prop :=
  exists pc,
    _provider_config (self s) = Some pc
    /\ ((exists n1,
           session_get (url_of c pc) (get_ca_cert_path pc) (net s) = (n1, inl e))
        \/ exists n1 res,
             session_get (url_of c pc) (get_ca_cert_path pc) (net s)
             = (n1, inr res)
             /\ (raise_for_status res = Some e
                 \/ (raise_for_status res = None
                     /\ match c with
                        | DownloadConfig =>
                            exists cfg1 r,
                              eip_load EIPConfig_new (content res) = (cfg1, r)
                              /\ (r = Some e
                                  \/ (r = None
                                      /\ exists f1,
                                           eip_save cfg1
                                             ["leap"; "providers"; get_domain pc;
                                              "eip-service.json"] (fs s)
                                           = (f1, Some e)))
                        | DownloadClientCertificates =>
                            exists cfg p f1 r,
                              _eip_config (self s) = Some cfg
                              /\ get_client_cert_path cfg pc true (fs s) = inr p
                              /\ os_makedirs (os_path_dirname p) (fs s) = (f1, r)
                              /\ ((r = Some e
                                   /\ tolerated e f1 (os_path_dirname p) = false)
                                  \/ ((r = None
                                       \/ exists e',
                                            r = Some e'
                                            /\ tolerated e' f1 (os_path_dirname p)
                                               = true)
                                      /\ exists f2,
                                           write_file p (content res) f1
                                           = (f2, Some e)))
                        end))).

(** The queue that [run_eip_setup_checks] sets. *)
Definition setup_queue : list Check :=
  [DownloadConfig; DownloadClientCertificates].

(** [q] is what is left of [setup_queue] after some checks were removed
    from its head: the whole of it, its last check, or nothing. *)
Definition end_of_setup_queue (q : list Check) : Prop :=
  exists gone, setup_queue = (gone ++ q)%list.

End Bootstrapper.

(** ** A test double for the collaborators

    In the way of the mocks of a test suite: a file system that is a list of
    entries, a session that answers from a list of canned results, and an
    [EIPConfig] that keeps the data it loaded.  [path_fault] is what
    [get_client_cert_path] raises, if anything. *)
Module Mock.

(** An entry is a file with its content, or a directory ([None]). *)
Definition MockFS := list (string * option string).

Fixpoint lookup (p : string) (l : MockFS) : option (option string) :=
  match l with
  | [] => None
  | (q, n) :: l' => if (p =? q)%string then Some n else lookup p l'
  end.

Definition exists_ (l : MockFS) (p : string) : bool :=
  match lookup p l with
  | Some _ => true
  | None => false
  end.

Definition isdir (l : MockFS) (p : string) : bool :=
  match lookup p l with
  | Some None => true
  | _ => false
  end.

Definition makedirs (p : string) (l : MockFS) : MockFS * option exn :=
  if exists_ l p
  then (l, Some (mkExn OSError (Some EEXIST) ("[Errno 17] File exists: '" ++ p ++ "'")))
  else ((p, None) :: l, None).

Definition write (p c : string) (l : MockFS) : MockFS * option exn :=
  if isdir l (os_path_dirname p)
  then ((p, Some c) :: l, None)
  else (l, Some (mkExn IOError (Some 2%Z)
                       ("[Errno 2] No such file or directory: '" ++ p ++ "'"))).

Definition prefix : string := "/home/user/.config".

Definition load (cfg : option string) (d : string) : option string * option exn :=
  if (d =? "")%string
  then (cfg, Some (mkExn OtherException None "No JSON object could be decoded"))
  else (Some d, None).

Definition save (cfg : option string) (path_list : list string) (l : MockFS)
  : MockFS * option exn :=
  match cfg with
  | Some d => ((os_path_join prefix path_list, Some d) :: l, None)
  | None => (l, Some (mkExn OtherException None "nothing to save"))
  end.

Definition cert_path (path_fault : option exn) (cfg : option string)
                     (pc : ProviderConfig) (about_to_download : bool) (l : MockFS)
  : exn + string :=
  match path_fault with
  | Some e => inl e
  | None =>
      let p := os_path_join prefix ["leap"; "providers"; get_domain pc;
                                    "keys"; "client"; "openvpn.pem"] in
      if about_to_download || exists_ l p then inr p
      else inl (mkExn AssertionError None "You need to download the certificate first")
  end.

Definition get (url verify : string) (n : list (exn + Response))
  : list (exn + Response) * (exn + Response) :=
  match n with
  | [] => ([], inl (mkExn ConnectionError None "Connection refused"))
  | r :: n' => (n', r)
  end.

(** As [requests] does: a status from 400 to 599 raises [HTTPError]. *)
Definition status_error (r : Response) : option exn :=
  if ((400 <=? status_code r) && (status_code r <? 600))%Z
  then Some (mkExn HTTPError None "HTTP error")
  else None.

Definition world (path_fault : option exn) : Collaborators :=
  {| FS := MockFS;
     Net := list (exn + Response);
     EIPConfig := option string;
     EIPConfig_new := None;
     get_path_prefix := fun _ => prefix;
     eip_load := load;
     eip_save := save;
     get_client_cert_path := cert_path path_fault;
     os_path_exists := exists_;
     os_path_isdir := isdir;
     os_makedirs := makedirs;
     write_file := write;
     session_get := get;
     raise_for_status := status_error |}.

(** A provider, and a bootstrapper configured for it. *)
Definition provider : ProviderConfig :=
  {| get_domain := "example.org";
     get_api_uri := "https://api.example.org:4430";
     get_api_version := "1";
     get_ca_cert_path := "/home/user/.config/leap/providers/example.org/keys/ca/cacert.pem" |}.

Definition configured (W : Collaborators) (flag : bool) (cfg : option (@EIPConfig W))
  : @EIPBootstrapper W :=
  {| _checks := [DownloadConfig; DownloadClientCertificates];
     _should_quit := false;
     _provider_config := Some provider;
     _eip_config := cfg;
     _download_if_needed := flag |}.

(** The state of a configured bootstrapper and of its surroundings. *)
Definition state (path_fault : option exn) (flag : bool) (cfg : option (option string))
                 (l : MockFS) (n : list (exn + Response)) : @State (world path_fault) :=
  @mkState (world path_fault) (configured (world path_fault) flag cfg) l n.

Definition ok_response (body : string) : exn + Response :=
  inr {| status_code := 200; content := body |}.

Definition not_found : exn + Response :=
  inr {| status_code := 404; content := "" |}.

Definition config_file : string :=
  "/home/user/.config/leap/providers/example.org/eip-service.json".

Definition cert_dir : string :=
  "/home/user/.config/leap/providers/example.org/keys/client".

Definition cert_file : string :=
  "/home/user/.config/leap/providers/example.org/keys/client/openvpn.pem".

Definition path_error : exn :=
  mkExn OtherException None "no path for the client certificate".

(** Nothing on disk, both downloads answered with 200. *)
Definition both_served : @State (world None) :=
  state None false None [] [ok_response "{}"; ok_response "CERT"].

(** Nothing on disk, the configuration answered with 404. *)
Definition config_not_found : @State (world None) :=
  state None false None [] [not_found; ok_response "CERT"].

(** The configuration is on disk and the skip flag is set. *)
Definition config_on_disk : @State (world None) :=
  state None true None [(config_file, Some "{}")] [].

(** The configuration is loaded; the certificate is answered with 404. *)
Definition cert_not_found : @State (world None) :=
  state None false (Some (Some "{}")) [(config_file, Some "{}")] [not_found].

(** The configuration is loaded, the directory of the certificate exists
    and the certificate is answered with 200. *)
Definition cert_dir_there : @State (world None) :=
  state None false (Some (Some "{}")) [(cert_dir, None)] [ok_response "CERT"].

(** The configuration is loaded but has no path for the certificate. *)
Definition cert_path_fails : @State (world (Some path_error)) :=
  state (Some path_error) false (Some (Some "{}")) [] [ok_response "CERT"].

(** The configuration is loaded; the certificate is answered with 200. *)
Definition cert_served : @State (world None) :=
  state None false (Some (Some "{}")) [] [ok_response "CERT"].

(** The certificate is on disk and the skip flag is set. *)
Definition cert_on_disk : @State (world None) :=
  state None true (Some (Some "{}")) [(cert_file, Some "CERT")] [].

(** Both downloads would be served, but the worker was told to quit. *)
Definition stopped : @State (world None) :=
  @mkState (world None) (set_quit true (self both_served))
           (fs both_served) (net both_served).

(** The configuration is loaded; the certificate is answered with 304 and
    an empty body. *)
Definition cert_not_modified : @State (world None) :=
  state None false (Some (Some "{}")) []
        [inr {| status_code := 304; content := "" |}].

(** A bootstrapper as [__init__] leaves it. *)
Definition unconfigured : @State (world None) :=
  @mkState (world None) (@init (world None)) [] [].

End Mock.

(** * Properties *)

Unset Implicit Arguments.

Section Properties.

Context {W : Collaborators}.

Arguments format : simpl never.
Arguments os_path_join : simpl never.
Arguments os_path_dirname : simpl never.
Arguments config_url : simpl never.
Arguments cert_url : simpl never.
Arguments config_path : simpl never.
Arguments check_round : simpl never.
Arguments aborted_round : simpl never.
Arguments idle_round : simpl never.

(** Unfolding the monad. *)
Ltac unfold_m :=
  unfold with_lock, locker_statement, emit, assert in *;
  unfold bind, ret, raise, try_except, finally, log, get_self, put_self,
    get_fs, lift_fs in *.

Ltac unfold_steps :=
  unfold exec, _download_config, _download_client_certificates, config_try,
    cert_try, client_cert_path_of, makedirs_unless_there, http_get,
    check_status, load_eip_config, save_eip_config in *.

Arguments is_Exception : simpl never.
Arguments is_OSError : simpl never.
Arguments EEXIST : simpl never.
Arguments Z.eqb : simpl never.

(** Case analysis on the next answer of a collaborator, or on the next
    test of a handler. *)
Ltac next_case :=
  match goal with
  | |- context [session_get ?a ?b ?c] =>
      destruct (session_get a b c) as [? [?|?]] eqn:?
  | |- context [raise_for_status ?a] => destruct (raise_for_status a) eqn:?
  | |- context [eip_load ?a ?b] => destruct (eip_load a b) as [? [?|]] eqn:?
  | |- context [eip_save ?a ?b ?c] => destruct (eip_save a b c) as [? [?|]] eqn:?
  | |- context [os_makedirs ?a ?b] => destruct (os_makedirs a b) as [? [?|]] eqn:?
  | |- context [write_file ?a ?b ?c] => destruct (write_file a b c) as [? [?|]] eqn:?
  | |- context [get_client_cert_path ?a ?b ?c ?d] =>
      destruct (get_client_cert_path a b c d) eqn:?
  | |- context [is_Exception ?e] => destruct (is_Exception e) eqn:?
  | |- context [is_OSError ?e] => destruct (is_OSError e) eqn:?
  | |- context [exn_errno ?e] => destruct (exn_errno e) eqn:?
  | |- context [Z.eqb ?a ?b] => destruct (Z.eqb a b) eqn:?
  | |- context [os_path_isdir ?a ?b] => destruct (os_path_isdir a b) eqn:?
  | |- context [os_path_exists ?a ?b] => destruct (os_path_exists a b) eqn:?
  end.

Ltac all_cases := cbn; repeat (next_case; cbn).

(** ** What a check leaves alone and what it logs *)

Lemma exec_keeps (c : Check) (s : State) :
  let b := self (final (exec c s)) in
  _checks b = _checks (self s)
  /\ _should_quit b = _should_quit (self s)
  /\ _provider_config b = _provider_config (self s)
  /\ _download_if_needed b = _download_if_needed (self s).
Proof.
  destruct s as [[q sq [pc|] [cfg|] [|]] f n], c;
    unfold_steps; unfold_m; all_cases; auto.
Qed.

Lemma exec_events (c : Check) (s : State) :
  forallb (of_check c) (events (exec c s)) = true.
Proof.
  destruct s as [[q sq [pc|] [cfg|] [|]] f n], c;
    unfold_steps; unfold_m; all_cases; auto.
Qed.

Lemma exec_delivery (c : Check) (s : State) :
  scan delivery_step (Working c) (events (exec c s))
  = Some match result (exec c s) with
         | inr b => Reported c b
         | inl _ => Working c
         end.
Proof.
  destruct s as [[q sq [pc|] [cfg|] [|]] f n], c;
    unfold_steps; unfold_m; all_cases; auto.
Qed.

(** ** Logs *)

Lemma scan_app {S : Type} (step : S -> Event -> option S) (st : S)
      (t1 t2 : list Event) :
  scan step st (t1 ++ t2)
  = match scan step st t1 with
    | Some st' => scan step st' t2
    | None => None
    end.
Proof.
  revert st; induction t1 as [|e t1 IH]; intros st; simpl.
  - reflexivity.
  - destruct (step st e); [apply IH | reflexivity].
Qed.

Lemma calls_of_app (t1 t2 : list Event) :
  calls_of (t1 ++ t2) = (calls_of t1 ++ calls_of t2)%list.
Proof.
  induction t1 as [|e t1 IH]; simpl; [reflexivity|].
  destruct e; simpl; rewrite ?IH; reflexivity.
Qed.

Lemma emits_of_app (t1 t2 : list Event) :
  emits_of (t1 ++ t2) = (emits_of t1 ++ emits_of t2)%list.
Proof.
  induction t1 as [|e t1 IH]; simpl; [reflexivity|].
  destruct e; simpl; rewrite ?IH; reflexivity.
Qed.

Lemma Signal_eqb_eq (a b : Signal) : Signal_eqb a b = true -> a = b.
Proof. destruct a, b; simpl; congruence. Qed.

Lemma Check_eqb_refl (c : Check) : Check_eqb c c = true.
Proof. destruct c; reflexivity. Qed.

Lemma calls_of_check (c : Check) (t : list Event) :
  forallb (of_check c) t = true -> calls_of t = [].
Proof.
  induction t as [|e t IH]; simpl; [reflexivity|].
  intros H; apply andb_true_iff in H as [He Ht].
  destruct e; simpl in *; try discriminate; auto.
Qed.

Lemma emits_of_work (t : list Event) :
  forallb is_work t = true -> emits_of t = [].
Proof.
  induction t as [|e t IH]; simpl; [reflexivity|].
  intros H; apply andb_true_iff in H as [He Ht].
  destruct e; simpl in *; try discriminate; auto.
Qed.

Lemma emits_of_idle (t : list Event) :
  forallb is_idle t = true -> emits_of t = [].
Proof.
  induction t as [|e t IH]; simpl; [reflexivity|].
  intros H; apply andb_true_iff in H as [He Ht].
  destruct e; simpl in *; try discriminate; auto.
Qed.

Lemma calls_of_idle (t : list Event) :
  forallb is_idle t = true -> calls_of t = [].
Proof.
  induction t as [|e t IH]; simpl; [reflexivity|].
  intros H; apply andb_true_iff in H as [He Ht].
  destruct e; simpl in *; try discriminate; auto.
Qed.


(** A log of a check that brought the automaton from [Working] to
    [Reported] is some work followed by one notification. *)
Lemma reported_shape (c : Check) (t : list Event) (b : bool) :
  forallb (of_check c) t = true ->
  scan delivery_step (Working c) t = Some (Reported c b) ->
  exists work d,
    t = (work ++ [EvEmit (signal_of c) d])%list
    /\ forallb is_work work = true
    /\ passed d = b.
Proof.
  induction t as [|e t IH]; simpl; [discriminate|].
  intros H; apply andb_true_iff in H as [He Ht].
  unfold of_check in He; apply orb_true_iff in He as [Hw | Hm].
  - assert (Hs : delivery_step (Working c) e = Some (Working c))
      by (destruct e; simpl in *; try discriminate; reflexivity).
    rewrite Hs; intros Hscan.
    destruct (IH Ht Hscan) as (work & d & -> & Hwork & Hd).
    exists (e :: work), d; simpl; rewrite Hw, Hwork; auto.
  - destruct e; try discriminate.
    simpl; rewrite Hm.
    apply Signal_eqb_eq in Hm; subst sig.
    destruct t as [|e' t]; simpl.
    + intros [= <-]; exists [], d; auto.
    + apply andb_true_iff in Ht as [He' _].
      assert (Hs : delivery_step (Reported c (passed d)) e' = None).
      { unfold of_check in He'; destruct e'; simpl in *; try discriminate;
          reflexivity. }
      rewrite Hs; discriminate.
Qed.

Lemma exec_reports (c : Check) (s : State) (b : bool) :
  result (exec c s) = inr b ->
  exists d, reports (exec c s) (signal_of c) d /\ passed d = b.
Proof.
  intros Hr.
  pose proof (exec_delivery c s) as Hd; rewrite Hr in Hd.
  destruct (reported_shape _ _ _ (exec_events c s) Hd) as (work & d & Ht & Hw & Hp).
  exists d; split; [|exact Hp].
  split; [rewrite Hr, Hp; reflexivity|].
  exists work; auto.
Qed.

(** ** One round of [run] *)

Lemma run_iteration_quit (s : State) :
  _should_quit (self s) = true ->
  run_iteration s = mkOut (inr true) s round_start.
Proof.
  destruct s as [[q sq pc cfg flag] f n]; simpl; intros ->.
  reflexivity.
Qed.

Lemma run_iteration_idle (s : State) :
  _should_quit (self s) = false ->
  _checks (self s) = [] ->
  run_iteration s = mkOut (inr false) s idle_round.
Proof.
  destruct s as [[q sq pc cfg flag] f n]; simpl; intros -> ->.
  reflexivity.
Qed.

Lemma run_iteration_check (s : State) (c : Check) (rest : list Check) :
  _should_quit (self s) = false ->
  _checks (self s) = c :: rest ->
  run_iteration s
  = match exec c (pop_state rest s) with
    | mkOut (inr b) s1 t =>
        mkOut (inr false) (if b then s1 else pop_state [] s1) (check_round c t b)
    | mkOut (inl e) s1 t =>
        mkOut (inl e) s1 (aborted_round c t)
    end.
Proof.
  destruct s as [[q sq pc cfg flag] f n]; simpl; intros -> ->.
  unfold run_iteration, get_should_quit, locked_part, call_check, pop_state,
    check_round, aborted_round, round_start.
  unfold_m; cbn.
  destruct (exec c _) as [[e|[|]] [b1 f1 n1] t]; cbn;
    rewrite <- ?app_assoc; cbn; rewrite ?app_nil_r; reflexivity.
Qed.

(** ** [run] *)

Lemma run_S (n : nat) (s : State) :
  run (S n) s
  = match run_iteration s with
    | mkOut (inl e) s1 t => mkOut (inl e) s1 t
    | mkOut (inr true) s1 t => mkOut (inr Returned) s1 (t ++ [])
    | mkOut (inr false) s1 t =>
        match run n s1 with
        | mkOut r s2 t' => mkOut r s2 (t ++ t')
        end
    end.
Proof.
  simpl; unfold bind.
  destruct (run_iteration s) as [[e|[|]] s1 t]; reflexivity.
Qed.

Lemma run_S_quit (n : nat) (s : State) :
  _should_quit (self s) = true ->
  run (S n) s = mkOut (inr Returned) s round_start.
Proof.
  intros H; rewrite run_S, (run_iteration_quit _ H); reflexivity.
Qed.

Lemma run_S_idle (n : nat) (s : State) :
  _should_quit (self s) = false ->
  _checks (self s) = [] ->
  run (S n) s
  = match run n s with
    | mkOut r s2 t' => mkOut r s2 (idle_round ++ t')
    end.
Proof.
  intros H H'; rewrite run_S, (run_iteration_idle _ H H'); reflexivity.
Qed.

Lemma run_S_check (n : nat) (s : State) (c : Check) (rest : list Check) :
  _should_quit (self s) = false ->
  _checks (self s) = c :: rest ->
  run (S n) s
  = match exec c (pop_state rest s) with
    | mkOut (inr b) s1 t =>
        match run n (if b then s1 else pop_state [] s1) with
        | mkOut r s2 t' => mkOut r s2 (check_round c t b ++ t')
        end
    | mkOut (inl e) s1 t => mkOut (inl e) s1 (aborted_round c t)
    end.
Proof.
  intros H H'; rewrite run_S, (run_iteration_check _ _ _ H H').
  destruct (exec c _) as [[e|b] s1 t]; reflexivity.
Qed.

(** Every log of [run] is a [run_log] of the queue it started with. *)
Lemma run_has_log (n : nat) (s : State) :
  run_log (_checks (self s)) (events (run n s)).
Proof.
  revert s; induction n as [|n IH]; intros s.
  - apply log_out_of_rounds.
  - destruct (_should_quit (self s)) eqn:Hq.
    + rewrite (run_S_quit _ _ Hq); apply log_returned.
    + destruct (_checks (self s)) as [|c rest] eqn:Hc.
      * rewrite (run_S_idle _ _ Hq Hc).
        specialize (IH s); rewrite Hc in IH.
        destruct (run n s) as [r s2 t']; simpl in *.
        apply log_idle, IH.
      * rewrite (run_S_check _ _ _ _ Hq Hc).
        pose proof (exec_events c (pop_state rest s)) as He.
        pose proof (exec_delivery c (pop_state rest s)) as Hd.
        pose proof (exec_keeps c (pop_state rest s)) as (Hk & _).
        destruct (exec c (pop_state rest s)) as [[e|b] s1 t]; simpl in *.
        -- apply log_aborted; assumption.
        -- specialize (IH (if b then s1 else pop_state [] s1)).
           destruct (run n _) as [r s2 t']; simpl in *.
           apply log_check; try assumption.
           destruct b; simpl in *; [rewrite Hk in IH|]; exact IH.
Qed.

(** ** What every log of [run] satisfies *)

Lemma halted_of_check (c : Check) (w rest : list Event) :
  forallb (of_check c) w = true ->
  halted_after_failure (w ++ rest) = halted_after_failure rest.
Proof.
  induction w as [|e w IH]; simpl; [reflexivity|].
  intros H; apply andb_true_iff in H as [He Hw].
  destruct e; simpl in *; try discriminate; auto.
Qed.

Lemma run_log_nil_idle (t : list Event) :
  run_log [] t -> forallb is_idle t = true.
Proof.
  intros H; remember [] as q eqn:Hq.
  induction H; try discriminate; try reflexivity.
  simpl; auto.
Qed.

Lemma run_log_halted (q : list Check) (t : list Event) :
  run_log q t -> halted_after_failure t = true.
Proof.
  induction 1 as [q|q|t H IH|c q w b t Hw Hs H IH|c q w Hw Hs];
    try reflexivity.
  - exact IH.
  - unfold check_round; cbn.
    rewrite <- app_assoc, (halted_of_check c) by assumption.
    destruct b; cbn; [exact IH|].
    apply run_log_nil_idle, H.
  - unfold aborted_round; cbn.
    rewrite (halted_of_check c) by assumption.
    reflexivity.
Qed.

Lemma run_log_delivery (q : list Check) (t : list Event) :
  run_log q t -> delivery_ok t = true.
Proof.
  unfold delivery_ok.
  induction 1 as [q|q|t H IH|c q w b t Hw Hs H IH|c q w Hw Hs];
    try reflexivity.
  - exact IH.
  - unfold check_round; cbn.
    rewrite <- app_assoc, scan_app, Hs; cbn.
    rewrite Check_eqb_refl, eqb_reflx; cbn.
    destruct b; cbn; exact IH.
  - unfold aborted_round; cbn.
    rewrite scan_app, Hs; reflexivity.
Qed.



Lemma run_empty_queue (n : nat) (s : State) :
  _checks (self s) = [] ->
  final (run n s) = s
  /\ forallb is_idle (events (run n s)) = true
  /\ (_should_quit (self s) = false -> result (run n s) = inr StillRunning).
Proof.
  intros Hc; induction n as [|n (IHs & IHt & IHr)];
    [repeat split; reflexivity|].
  destruct (_should_quit (self s)) eqn:Hq.
  - rewrite (run_S_quit _ _ Hq); repeat split; discriminate.
  - rewrite (run_S_idle _ _ Hq Hc).
    destruct (run n s) as [r s2 t']; cbn [result final events] in *; auto.
Qed.

(** ** Every run *)

Lemma run_halted_after_failure (n : nat) (s : State) :
  halted_after_failure (events (run n s)) = true.
Proof. eapply run_log_halted, run_has_log. Qed.

Lemma run_delivery_ok (n : nat) (s : State) :
  delivery_ok (events (run n s)) = true.
Proof. eapply run_log_delivery, run_has_log. Qed.



Lemma In_emits_of (sig : Signal) (d : CheckData) (t : list Event) :
  In (EvEmit sig d) t -> In (sig, d) (emits_of t).
Proof.
  induction t as [|e t IH]; simpl; [auto|].
  intros [-> | H]; simpl; [auto|].
  destruct e; simpl; auto.
Qed.

Lemma emits_of_check_round (c : Check) (w : list Event) (b : bool) :
  emits_of (check_round c w b) = emits_of w.
Proof.
  unfold check_round; cbn.
  rewrite emits_of_app; destruct b; cbn; rewrite app_nil_r; reflexivity.
Qed.

Lemma calls_of_check_round (c : Check) (w : list Event) (b : bool) :
  forallb (of_check c) w = true ->
  calls_of (check_round c w b) = [c].
Proof.
  intros Hw; unfold check_round; cbn.
  rewrite calls_of_app, (calls_of_check c w Hw); destruct b; reflexivity.
Qed.

Lemma reports_emits (o : Outcome bool) (sig : Signal) (d : CheckData) :
  reports o sig d -> emits_of (events o) = [(sig, d)].
Proof.
  intros (_ & work & -> & Hw).
  rewrite emits_of_app, (emits_of_work _ Hw); reflexivity.
Qed.

(** To show that a check reports [d] it is enough to compute what it
    returns and the notifications of its log. *)
Lemma reports_intro (c : Check) (s : State) (d : CheckData) :
  result (exec c s) = inr (passed d) ->
  emits_of (events (exec c s)) = [(signal_of c, d)] ->
  reports (exec c s) (signal_of c) d.
Proof.
  intros Hr He.
  destruct (exec_reports _ _ _ Hr) as (d' & Hrep & _).
  rewrite (reports_emits _ _ _ Hrep) in He.
  injection He as ->; exact Hrep.
Qed.

Lemma run_S_calls (n : nat) (s : State) (c : Check) (rest : list Check) :
  _should_quit (self s) = false ->
  _checks (self s) = c :: rest ->
  calls_of (events (run (S n) s))
  = c :: match exec c (pop_state rest s) with
         | mkOut (inr b) s1 _ =>
             calls_of (events (run n (if b then s1 else pop_state [] s1)))
         | mkOut (inl _) _ _ => []
         end.
Proof.
  intros Hq Hc.
  rewrite (run_S_check _ _ _ _ Hq Hc).
  pose proof (exec_events c (pop_state rest s)) as Hof.
  destruct (exec c (pop_state rest s)) as [[e|b] s1 t]; cbn [events] in *.
  - unfold aborted_round; cbn.
    rewrite calls_of_app, (calls_of_check _ _ Hof); reflexivity.
  - destruct (run n _) as [r s2 t']; cbn [events].
    rewrite calls_of_app, (calls_of_check_round _ _ _ Hof); reflexivity.
Qed.

Lemma working_no_emit (c : Check) (w : list Event) :
  forallb (of_check c) w = true ->
  scan delivery_step (Working c) w = Some (Working c) ->
  emits_of w = [].
Proof.
  induction w as [|e w IH]; simpl; [reflexivity|].
  intros H; apply andb_true_iff in H as [He Hw].
  unfold of_check in He; apply orb_true_iff in He as [Hk | Hm].
  - assert (Hs : delivery_step (Working c) e = Some (Working c))
      by (destruct e; simpl in *; try discriminate; reflexivity).
    rewrite Hs; intros Hscan.
    destruct e; simpl in *; try discriminate; auto.
  - destruct e; try discriminate.
    simpl; rewrite Hm.
    destruct w as [|e' w]; simpl; [discriminate|].
    apply andb_true_iff in Hw as [He' _].
    assert (Hs : delivery_step (Reported c (passed d)) e' = None).
    { unfold of_check in He'; destruct e'; simpl in *; try discriminate;
        reflexivity. }
    rewrite Hs; discriminate.
Qed.

Lemma emits_of_aborted_round (c : Check) (w : list Event) :
  emits_of (aborted_round c w) = emits_of w.
Proof.
  unfold aborted_round; cbn.
  rewrite emits_of_app; cbn; apply app_nil_r.
Qed.

(** ** When a check raises *)

(** Whether [os.makedirs]' error is dropped, from the tests that were
    made. *)
Ltac settle_tolerated :=
  unfold tolerated;
  repeat match goal with
         | H : ?x = _ |- context [?x] => rewrite H
         end;
  reflexivity.

(** Finding, among the answers of the collaborators that are known, the
    call that raised. *)
Ltac find_raise :=
  solve [ eassumption
        | reflexivity
        | settle_tolerated
        | split; find_raise
        | eexists; find_raise
        | left; find_raise
        | right; find_raise ].

(** The only ways for a check not to return: a failed [assert], an
    exception of the path computation of the certificate, or an exception
    that [except Exception] does not catch, raised by a call of the [try]
    block.  A check that does not return has notified nothing. *)
Lemma exec_raises_only (c : Check) (s : State) (e : exn) :
  result (exec c s) = inl e ->
  emits_of (events (exec c s)) = []
  /\ ((_provider_config (self s) = None /\ exn_class e = AssertionError)
      \/ (c = DownloadClientCertificates
          /\ _eip_config (self s) = None
          /\ exn_class e = AssertionError)
      \/ (c = DownloadClientCertificates
          /\ exists cfg pc,
               _eip_config (self s) = Some cfg
               /\ _provider_config (self s) = Some pc
               /\ get_client_cert_path cfg pc true (fs s) = inl e)
      \/ (is_Exception e = false /\ raised_in_try c s e)).
Proof.
  unfold raised_in_try.
  destruct s as [[q sq [pc|] [cfg|] [|]] f n], c;
    unfold_steps; unfold_m; all_cases;
    try discriminate; intros [= <-]; try congruence;
    (split; [reflexivity|]);
    cbn [self fs net _provider_config _eip_config url_of];
    first [ left; split; reflexivity
          | right; left; repeat split; reflexivity
          | right; right; left; split; [reflexivity|]; do 2 eexists;
            repeat split; eassumption
          | right; right; right; split; [first [assumption | reflexivity]|];
            eexists; split; [reflexivity|]; find_raise ].
Qed.

(** In a run every call of a check is answered by one notification on the
    signal of the check, in the order of the calls, but for the last call
    when the run ends on an exception of that check. *)
Lemma run_emits_match_calls (n : nat) (s : State) :
  map fst (emits_of (events (run n s)))
  = map signal_of
        match result (run n s) with
        | inr _ => calls_of (events (run n s))
        | inl _ => removelast (calls_of (events (run n s)))
        end
  /\ (forall e, result (run n s) = inl e -> calls_of (events (run n s)) <> []).
Proof.
  revert s; induction n as [|n IH]; intros s.
  - split; [reflexivity | discriminate].
  - destruct (_should_quit (self s)) eqn:Hq.
    + rewrite (run_S_quit _ _ Hq); split; [reflexivity | discriminate].
    + destruct (_checks (self s)) as [|c rest] eqn:Hc.
      * rewrite (run_S_idle _ _ Hq Hc).
        destruct (IH s) as [IHe IHc].
        destruct (run n s) as [r s2 t']; cbn [result events] in *.
        rewrite emits_of_app, calls_of_app,
          (emits_of_idle idle_round eq_refl), (calls_of_idle idle_round eq_refl).
        split; assumption.
      * rewrite (run_S_check _ _ _ _ Hq Hc).
        pose proof (exec_events c (pop_state rest s)) as Hof.
        pose proof (exec_raises_only c (pop_state rest s)) as Hraise.
        pose proof (exec_reports c (pop_state rest s)) as Hrep.
        destruct (exec c (pop_state rest s)) as [[e|b] s1 t];
          cbn [result final events] in *.
        -- destruct (Hraise e eq_refl) as [Hnone _].
           rewrite emits_of_aborted_round, Hnone.
           unfold aborted_round; cbn.
           rewrite calls_of_app, (calls_of_check _ _ Hof).
           split; [reflexivity | discriminate].
        -- destruct (Hrep b eq_refl) as (d & (_ & work & Hev & Hwork) & Hd).
           destruct (IH (if b then s1 else pop_state [] s1)) as [IHe IHc].
           destruct (run n _) as [r s2 t']; cbn [result events] in *.
           rewrite emits_of_app, emits_of_check_round, calls_of_app,
             (calls_of_check_round _ _ _ Hof), Hev, emits_of_app,
             (emits_of_work _ Hwork).
           cbn [app emits_of map fst]; rewrite IHe.
           split; [|discriminate].
           destruct r as [e|r]; [|reflexivity].
           specialize (IHc e eq_refl).
           destruct (calls_of t'); [contradiction | reflexivity].
Qed.

Lemma run_leaves_end_of_queue (n : nat) (s : State) :
  exists gone,
    _checks (self s) = (gone ++ _checks (self (final (run n s))))%list.
Proof.
  revert s; induction n as [|n IH]; intros s.
  - exists []; reflexivity.
  - destruct (_should_quit (self s)) eqn:Hq.
    + rewrite (run_S_quit _ _ Hq); exists []; reflexivity.
    + destruct (_checks (self s)) as [|c rest] eqn:Hc.
      * rewrite (run_S_idle _ _ Hq Hc).
        destruct (IH s) as [gone Hgone]; rewrite Hc in Hgone.
        destruct (run n s) as [r s2 t']; cbn [final] in *.
        exists gone; exact Hgone.
      * rewrite (run_S_check _ _ _ _ Hq Hc).
        pose proof (exec_keeps c (pop_state rest s)) as (Hk & _).
        destruct (exec c (pop_state rest s)) as [[e|b] s1 t];
          cbn [final pop_state self set_checks _checks] in *.
        -- exists [c]; rewrite Hk; reflexivity.
        -- destruct (IH (if b then s1 else pop_state [] s1)) as [gone Hgone].
           destruct (run n _) as [r s2 t']; cbn [final] in *.
           destruct b; cbn [pop_state self set_checks _checks] in Hgone.
           ++ exists (c :: gone); rewrite <- Hk, Hgone; reflexivity.
           ++ apply eq_sym, app_eq_nil in Hgone as [_ ->].
              exists (c :: rest); rewrite app_nil_r; reflexivity.
Qed.

(** ** The addresses *)

Lemma config_url_spelled (pc : ProviderConfig) :
  config_url pc
  = (get_api_uri pc ++ "/" ++ get_api_version pc ++ "/config/eip-service.json")%string.
Proof. reflexivity. Qed.

Lemma cert_url_spelled (pc : ProviderConfig) :
  cert_url pc = (get_api_uri pc ++ "/" ++ get_api_version pc ++ "/cert/")%string.
Proof. reflexivity. Qed.

(** Rewriting with the answers of the collaborators that are known. *)
Ltac use_answers :=
  repeat (cbn; match goal with
               | H : ?x = _ |- context [?x] => rewrite H
               end); cbn.

(** A check reports a given dict: by computing, with the known answers,
    what it returns and what it emits. *)
Ltac reported_by c :=
  apply (reports_intro c); cbn [exec passed];
  unfold_steps; unfold_m; use_answers; reflexivity.

(** * The claims *)

(** C1.  Halt on failure.  When the check that a round of [run] pops from
    the head of the queue returns [False], that round leaves the queue
    empty, and in the whole run, however many rounds follow, no other check
    is called and no other notification is delivered: the calls of the run
    are that one check, its notifications the one of that check, and what
    follows the failed return in the log is idle rounds
    ([halted_after_failure]).  The loop goes on, idle, without raising.  In
    particular, when the failed check is the config fetch, no
    [download_client_certificate] is emitted. *)
Theorem halt_on_failure (n : nat) (s : State) (c : Check) (rest : list Check) :
  _should_quit (self s) = false ->
  _checks (self s) = c :: rest ->
  result (exec c (pop_state rest s)) = inr false ->
  _checks (self (final (run_iteration s))) = []
  /\ _checks (self (final (run (S n) s))) = []
  /\ result (run (S n) s) = inr StillRunning
  /\ calls_of (events (run (S n) s)) = [c]
  /\ (exists d, emits_of (events (run (S n) s)) = [(signal_of c, d)]
                /\ passed d = false)
  /\ halted_after_failure (events (run (S n) s)) = true
  /\ (c = DownloadConfig ->
      forall d, ~ In (EvEmit download_client_certificate d)
                     (events (run (S n) s))).
Proof.
  intros Hq Hc Hr.
  pose proof (run_halted_after_failure (S n) s) as Hhalt.
  destruct (exec_reports _ _ _ Hr) as (d & (_ & work & Hev & Hwork) & Hd).
  pose proof (exec_events c (pop_state rest s)) as Hof.
  pose proof (exec_keeps c (pop_state rest s)) as (_ & Hsq & _).
  rewrite (run_iteration_check _ _ _ Hq Hc).
  rewrite (run_S_check _ _ _ _ Hq Hc) in *.
  destruct (exec c (pop_state rest s)) as [[e|b] s1 t];
    cbn [result final events] in *; [discriminate|].
  injection Hr as ->.
  destruct (run_empty_queue n (pop_state [] s1) eq_refl) as (Hfin & Hidle & Hres).
  cbn [pop_state self set_checks _should_quit] in Hres, Hsq.
  rewrite Hsq, Hq in Hres; specialize (Hres eq_refl).
  destruct (run n (pop_state [] s1)) as [r s2 t']; cbn [result final events] in *.
  assert (Hemits : emits_of (check_round c t false ++ t') = [(signal_of c, d)]).
  { rewrite emits_of_app, emits_of_check_round, (emits_of_idle _ Hidle), Hev.
    rewrite emits_of_app, (emits_of_work _ Hwork); reflexivity. }
  repeat apply conj.
  - reflexivity.
  - rewrite Hfin; reflexivity.
  - exact Hres.
  - rewrite calls_of_app, (calls_of_check_round _ _ _ Hof), (calls_of_idle _ Hidle).
    reflexivity.
  - exists d; auto.
  - exact Hhalt.
  - intros -> d' Hin.
    apply In_emits_of in Hin; rewrite Hemits in Hin.
    destruct Hin as [Heq | []]; discriminate.
Qed.

(** C2.  Skip without network.  When [_download_if_needed] is set and the
    file [<prefix>/leap/providers/<domain>/eip-service.json] exists,
    [_download_config] returns [True] and its only event is the emission of
    [{"passed": True, "error": ""}] on [download_config]: [session.get] is
    not called, and neither the network nor the file system changes. *)
Theorem skip_config_without_network (s : State) (pc : ProviderConfig) :
  _provider_config (self s) = Some pc ->
  _download_if_needed (self s) = true ->
  os_path_exists (fs s)
    (os_path_join (get_path_prefix EIPConfig_new)
                  ["leap"; "providers"; get_domain pc; "eip-service.json"]) = true ->
  let o := _download_config s in
  result o = inr true
  /\ events o = [EvEmit download_config {| passed := true; error := "" |}]
  /\ filter is_get (events o) = []
  /\ net (final o) = net s
  /\ fs (final o) = fs s.
Proof.
  destruct s as [[q sq opc cfg flag] f n]; cbn.
  intros -> -> Hex.
  unfold _download_config; unfold_m; cbn.
  unfold config_path; rewrite Hex; cbn.
  repeat apply conj; reflexivity.
Qed.

(** C3, as the code has it.  In [_download_client_certificates] the path
    computation comes before the [try]: what it raises is raised to the
    caller, with no notification.  Once the path has been computed, every
    exception that [except Exception] catches and that is raised by
    [session.get], by [raise_for_status], by [os.makedirs] or by the write
    is reported as [{"passed": False, "error": str(e)}] and the check
    returns [False]: nothing of class [Exception] is raised to [run].  An
    [OSError] of [os.makedirs] whose [errno] is [EEXIST], the path being a
    directory, is dropped, and the check goes on to write the file. *)
Theorem cert_exceptions_reported (s : State) (pc : ProviderConfig)
        (cfg : EIPConfig) :
  _provider_config (self s) = Some pc ->
  _eip_config (self s) = Some cfg ->
  let o := _download_client_certificates s in
  let url := cert_url pc in
  let ca := get_ca_cert_path pc in
  let failed e :=
    reports o download_client_certificate {| passed := false; error := exn_str e |} in
  (forall e,
     get_client_cert_path cfg pc true (fs s) = inl e ->
     result o = inl e /\ events o = [EvCertPath cfg pc true])
  /\ (forall p,
        get_client_cert_path cfg pc true (fs s) = inr p ->
        let dir := os_path_dirname p in
        (forall e, result o = inl e -> is_Exception e = false)
        /\ (skips_cert s p = false ->
            (forall n1 e,
               session_get url ca (net s) = (n1, inl e) ->
               is_Exception e = true -> failed e)
            /\ (forall n1 res e,
                  session_get url ca (net s) = (n1, inr res) ->
                  raise_for_status res = Some e ->
                  is_Exception e = true -> failed e)
            /\ (forall n1 res f1 e,
                  session_get url ca (net s) = (n1, inr res) ->
                  raise_for_status res = None ->
                  os_makedirs dir (fs s) = (f1, Some e) ->
                  tolerated e f1 dir = false ->
                  is_Exception e = true -> failed e)
            /\ (forall n1 res f1 r f2 e,
                  session_get url ca (net s) = (n1, inr res) ->
                  raise_for_status res = None ->
                  os_makedirs dir (fs s) = (f1, r) ->
                  (r = None \/ exists e', r = Some e' /\ tolerated e' f1 dir = true) ->
                  write_file p (content res) f1 = (f2, Some e) ->
                  is_Exception e = true -> failed e)
            /\ (forall n1 res f1 e' f2,
                  session_get url ca (net s) = (n1, inr res) ->
                  raise_for_status res = None ->
                  os_makedirs dir (fs s) = (f1, Some e') ->
                  tolerated e' f1 dir = true ->
                  write_file p (content res) f1 = (f2, None) ->
                  reports o download_client_certificate
                          {| passed := true; error := "" |}
                  /\ In (EvWrite p (content res)) (events o)))).
Proof.
  destruct s as [[q sq opc ocfg flag] f n]; unfold skips_cert;
    cbn [self fs net _provider_config _eip_config _download_if_needed].
  intros -> ->; cbv zeta.
  split.
  { intros e Hp; unfold_steps; unfold_m; use_answers; split; reflexivity. }
  intros p Hp; cbv zeta; split.
  { unfold_steps; unfold_m; use_answers.
    destruct flag; cbn;
      repeat (next_case; cbn); intros e' [= <-]; assumption. }
  intros Hskip.
  repeat apply conj.
  - intros n1 e Hget He; reported_by DownloadClientCertificates.
  - intros n1 res e Hget Hst He; reported_by DownloadClientCertificates.
  - intros n1 res f1 e Hget Hst Hmk Htol He; unfold tolerated in Htol.
    destruct (is_OSError e) eqn:Hos; cbn in Htol;
      reported_by DownloadClientCertificates.
  - intros n1 res f1 r f2 e Hget Hst Hmk [-> | (e' & -> & Htol)] Hwr He;
      [reported_by DownloadClientCertificates|].
    unfold tolerated in Htol.
    apply andb_true_iff in Htol as [Htol Hdir].
    apply andb_true_iff in Htol as [Hos Herr].
    reported_by DownloadClientCertificates.
  - intros n1 res f1 e' f2 Hget Hst Hmk Htol Hwr; unfold tolerated in Htol.
    apply andb_true_iff in Htol as [Htol Hdir].
    apply andb_true_iff in Htol as [Hos Herr].
    split; [reported_by DownloadClientCertificates|].
    unfold_steps; unfold_m; use_answers; auto 10.
Qed.

(** C4, as the code has it.  When [_download_config] does not skip and
    an exception that [except Exception] catches is raised by
    [session.get], by [raise_for_status], by [load] or by [save], the check
    reports [{"passed": False, "error": str(e)}] and returns [False].  The
    queue, the provider and the skip flag are as before, and the file system
    is as before unless the exception comes from [save] (it is then as the
    failed [save] left it).  [_eip_config] is not as before: it is the
    [EIPConfig()] that the check constructed when it started, as [load]
    left it if [load] was reached. *)
Theorem config_exceptions_reported (s : State) (pc : ProviderConfig) :
  _provider_config (self s) = Some pc ->
  skips_config s pc = false ->
  let o := _download_config s in
  let url := config_url pc in
  let ca := get_ca_cert_path pc in
  let path_list := ["leap"; "providers"; get_domain pc; "eip-service.json"] in
  let failed e :=
    reports o download_config {| passed := false; error := exn_str e |} in
  (forall n1 e,
     session_get url ca (net s) = (n1, inl e) ->
     is_Exception e = true ->
     failed e
     /\ fs (final o) = fs s
     /\ self (final o) = set_eip_config (Some EIPConfig_new) (self s))
  /\ (forall n1 res e,
        session_get url ca (net s) = (n1, inr res) ->
        raise_for_status res = Some e ->
        is_Exception e = true ->
        failed e
        /\ fs (final o) = fs s
        /\ self (final o) = set_eip_config (Some EIPConfig_new) (self s))
  /\ (forall n1 res cfg1 e,
        session_get url ca (net s) = (n1, inr res) ->
        raise_for_status res = None ->
        eip_load EIPConfig_new (content res) = (cfg1, Some e) ->
        is_Exception e = true ->
        failed e
        /\ fs (final o) = fs s
        /\ self (final o) = set_eip_config (Some cfg1) (self s))
  /\ (forall n1 res cfg1 f1 e,
        session_get url ca (net s) = (n1, inr res) ->
        raise_for_status res = None ->
        eip_load EIPConfig_new (content res) = (cfg1, None) ->
        eip_save cfg1 path_list (fs s) = (f1, Some e) ->
        is_Exception e = true ->
        failed e
        /\ fs (final o) = f1
        /\ self (final o) = set_eip_config (Some cfg1) (self s)).
Proof.
  destruct s as [[q sq opc ocfg flag] f n]; unfold skips_config;
    cbn [self fs net _provider_config _eip_config _download_if_needed].
  intros -> Hskip; cbv zeta.
  repeat apply conj.
  - intros n1 e Hget He; split; [reported_by DownloadConfig|].
    unfold_steps; unfold_m; use_answers; split; reflexivity.
  - intros n1 res e Hget Hst He; split; [reported_by DownloadConfig|].
    unfold_steps; unfold_m; use_answers; split; reflexivity.
  - intros n1 res cfg1 e Hget Hst Hld He; split; [reported_by DownloadConfig|].
    unfold_steps; unfold_m; use_answers; split; reflexivity.
  - intros n1 res cfg1 f1 e Hget Hst Hld Hsv He;
      split; [reported_by DownloadConfig|].
    unfold_steps; unfold_m; use_answers; split; reflexivity.
Qed.

(** C5, as the code has it.  A check that returns [b] has delivered
    exactly one notification, on its own signal, carrying a dict whose
    [passed] is [b]; the notification is the last event of the check, after
    all its work ([reports]).  A check that raises has delivered none; it
    raises only when an [assert] fails, when the path computation of the
    certificate raises, or when a call of its [try] block raises an
    exception that is not of class [Exception].  In a run, checks are called
    one after the other, each call being followed by its work, then its one
    notification, then its return, before the next call ([delivery_ok]); the
    notifications of the run answer its calls one for one, in order, but for
    the last call when that check raised, which ends the run. *)
Theorem one_notification_per_check (c : Check) (s : State) :
  (forall b,
     result (exec c s) = inr b ->
     exists d, reports (exec c s) (signal_of c) d
               /\ passed d = b
               /\ emits_of (events (exec c s)) = [(signal_of c, d)])
  /\ (forall e,
        result (exec c s) = inl e ->
        emits_of (events (exec c s)) = []
        /\ ((_provider_config (self s) = None /\ exn_class e = AssertionError)
            \/ (c = DownloadClientCertificates
                /\ _eip_config (self s) = None
                /\ exn_class e = AssertionError)
            \/ (c = DownloadClientCertificates
                /\ exists cfg pc,
                     _eip_config (self s) = Some cfg
                     /\ _provider_config (self s) = Some pc
                     /\ get_client_cert_path cfg pc true (fs s) = inl e)
            \/ (is_Exception e = false /\ raised_in_try c s e)))
  /\ (forall n,
        delivery_ok (events (run n s)) = true
        /\ map fst (emits_of (events (run n s)))
           = map signal_of
                 match result (run n s) with
                 | inr _ => calls_of (events (run n s))
                 | inl _ => removelast (calls_of (events (run n s)))
                 end).
Proof.
  repeat apply conj.
  - intros b Hr.
    destruct (exec_reports _ _ _ Hr) as (d & Hrep & Hd).
    exists d; split; [exact Hrep|split; [exact Hd|]].
    apply reports_emits, Hrep.
  - apply exec_raises_only.
  - intros n; split; [apply run_delivery_ok | apply run_emits_match_calls].
Qed.


(** C7.  Preconditions fail fast.  [run_eip_setup_checks] called with
    [None], or with any object that is false, raises [AssertionError] and
    changes nothing: the queue is as it was.
    [_download_client_certificates] called while [_provider_config] or
    [_eip_config] is [None] raises [AssertionError] with no event and no
    change of state. *)
Theorem preconditions_fail_fast (o : PyObj) (flag : bool) (s : State) :
  (truth o = false ->
   exists e, run_eip_setup_checks o flag s = mkOut (inl e) s []
             /\ exn_class e = AssertionError)
  /\ (_provider_config (self s) = None \/ _eip_config (self s) = None ->
      exists e, _download_client_certificates s = mkOut (inl e) s []
                /\ exn_class e = AssertionError).
Proof.
  split.
  - intros Ht; unfold run_eip_setup_checks; unfold_m.
    rewrite Ht; cbn.
    eexists; split; reflexivity.
  - destruct s as [[q sq opc cfg fl] f n]; cbn.
    unfold _download_client_certificates; unfold_m; cbn.
    intros [-> | ->]; [|destruct opc]; cbn; eexists; split; reflexivity.
Qed.

(** C8, as the code has it.  Whatever the provider, a [session.get] of
    [_download_config] is for [<api_uri>/<api_version>/config/eip-service.json]
    and one of [_download_client_certificates] is for
    [<api_uri>/<api_version>/cert/], both with [verify] set to the path of
    the CA certificate of the provider; the request is the first thing the
    check does (after the path computation, for the certificate) unless the
    check skips.  The checks do not look at the status of the response: they
    call [raise_for_status].  When it raises, the check reports
    [{"passed": False, "error": str(e)}] and returns [False]; when it raises
    nothing the check goes on with the body of the response, whatever the
    status: the configuration check loads it, the certificate check creates
    the directory for it. *)
Theorem requests_and_status (s : State) (pc : ProviderConfig) :
  _provider_config (self s) = Some pc ->
  let url1 := (get_api_uri pc ++ "/" ++ get_api_version pc
               ++ "/config/eip-service.json")%string in
  let url2 := (get_api_uri pc ++ "/" ++ get_api_version pc ++ "/cert/")%string in
  let ca := get_ca_cert_path pc in
  let o1 := _download_config s in
  let o2 := _download_client_certificates s in
  (forall url v, In (EvGet url v) (events o1) -> url = url1 /\ v = ca)
  /\ (skips_config s pc = false ->
      (exists t, events o1 = EvGet url1 ca :: t)
      /\ (forall n1 res e,
            session_get url1 ca (net s) = (n1, inr res) ->
            raise_for_status res = Some e ->
            is_Exception e = true ->
            reports o1 download_config
                    {| passed := false; error := exn_str e |})
      /\ (forall n1 res,
            session_get url1 ca (net s) = (n1, inr res) ->
            raise_for_status res = None ->
            exists t, events o1 = EvGet url1 ca :: EvLoad (content res) :: t))
  /\ (forall url v, In (EvGet url v) (events o2) -> url = url2 /\ v = ca)
  /\ (forall cfg p,
        _eip_config (self s) = Some cfg ->
        get_client_cert_path cfg pc true (fs s) = inr p ->
        skips_cert s p = false ->
        (exists t, events o2 = EvCertPath cfg pc true :: EvGet url2 ca :: t)
        /\ (forall n1 res e,
              session_get url2 ca (net s) = (n1, inr res) ->
              raise_for_status res = Some e ->
              is_Exception e = true ->
              reports o2 download_client_certificate
                      {| passed := false; error := exn_str e |})
        /\ (forall n1 res,
              session_get url2 ca (net s) = (n1, inr res) ->
              raise_for_status res = None ->
              exists t, events o2
                        = EvCertPath cfg pc true
                          :: EvGet url2 ca
                          :: EvMakedirs (os_path_dirname p) :: t)).
Proof.
  destruct s as [[q sq opc ocfg flag] f n]; unfold skips_config, skips_cert;
    cbn [self fs net _provider_config _eip_config _download_if_needed].
  intros ->; cbv zeta.
  rewrite <- config_url_spelled, <- cert_url_spelled.
  repeat apply conj.
  - unfold_steps; unfold_m; cbn.
    destruct (flag && os_path_exists f _); cbn;
      repeat (next_case; cbn);
      intros url v Hin; cbn in Hin;
      repeat (destruct Hin as [Hin|Hin]; [try discriminate|]);
      try contradiction; injection Hin as <- <-; auto.
  - intros Hskip; repeat apply conj.
    + unfold_steps; unfold_m; use_answers.
      repeat (next_case; cbn); eexists; reflexivity.
    + intros n1 res e Hget Hst He; reported_by DownloadConfig.
    + intros n1 res Hget Hst.
      unfold_steps; unfold_m; use_answers.
      repeat (next_case; cbn); eexists; reflexivity.
  - destruct ocfg as [cfg|]; unfold_steps; unfold_m; cbn;
      [|intros url v []].
    destruct (get_client_cert_path cfg pc true f); cbn;
      [intros url v [H|[]]; discriminate|].
    destruct (flag && os_path_exists f _); cbn;
      repeat (next_case; cbn);
      intros url v Hin; cbn in Hin;
      repeat (destruct Hin as [Hin|Hin]; [try discriminate|]);
      try contradiction; injection Hin as <- <-; auto.
  - intros cfg p -> Hp Hskip; repeat apply conj.
    + unfold_steps; unfold_m; use_answers.
      repeat (next_case; cbn); eexists; reflexivity.
    + intros n1 res e Hget Hst He; reported_by DownloadClientCertificates.
    + intros n1 res Hget Hst.
      unfold_steps; unfold_m; use_answers.
      repeat (next_case; cbn); eexists; reflexivity.
Qed.


(** C10.  What the skip leaves behind.  In the case of C2 the
    [_eip_config] that [_download_config] leaves is [EIPConfig()] as
    constructed: [load] is not called.  [_download_client_certificates],
    run next, asks that object for the path of the certificate: its first
    event is [get_client_cert_path] on [EIPConfig()], it raises what that
    call raises, and it creates no directory and writes no file but at the
    path that call returned. *)
Theorem skip_leaves_default_config (s : State) (pc : ProviderConfig) :
  _provider_config (self s) = Some pc ->
  _download_if_needed (self s) = true ->
  os_path_exists (fs s)
    (os_path_join (get_path_prefix EIPConfig_new)
                  ["leap"; "providers"; get_domain pc; "eip-service.json"]) = true ->
  let o := _download_config s in
  let o2 := _download_client_certificates (final o) in
  _eip_config (self (final o)) = Some EIPConfig_new
  /\ (forall data, ~ In (EvLoad data) (events o))
  /\ (exists t, events o2 = EvCertPath EIPConfig_new pc true :: t)
  /\ (forall e, get_client_cert_path EIPConfig_new pc true (fs s) = inl e ->
                result o2 = inl e)
  /\ (forall p data, In (EvWrite p data) (events o2) ->
                     get_client_cert_path EIPConfig_new pc true (fs s) = inr p)
  /\ (forall d, In (EvMakedirs d) (events o2) ->
                exists p, get_client_cert_path EIPConfig_new pc true (fs s) = inr p
                          /\ d = os_path_dirname p).
Proof.
  destruct s as [[q sq opc cfg flag] f n]; cbn.
  intros -> -> Hex.
  unfold _download_config; unfold_m; cbn.
  unfold config_path; rewrite Hex; cbn.
  unfold_steps; unfold_m; cbn.
  split; [reflexivity|].
  split; [intros data [H|[]]; discriminate|].
  destruct (get_client_cert_path EIPConfig_new pc true f) as [e|p] eqn:Hp; cbn.
  - repeat apply conj.
    + eexists; reflexivity.
    + intros e' [= <-]; reflexivity.
    + intros p data [H|[]]; discriminate.
    + intros d [H|[]]; discriminate.
  - repeat (next_case; cbn);
      (repeat apply conj;
       [ eexists; reflexivity
       | discriminate
       | intros p' data' Hin; cbn in Hin;
         repeat (destruct Hin as [Hin|Hin]; [try discriminate|]);
         try contradiction; congruence
       | intros d' Hin; cbn in Hin;
         repeat (destruct Hin as [Hin|Hin]; [try discriminate|]);
         try contradiction; exists p; split; congruence ]).
Qed.

(** * Further properties of the class *)

(** ** The checks, when they succeed or skip *)

(** X1.  A configuration download that succeeds.  When [_download_config]
    does not skip, the request is answered, [raise_for_status] raises
    nothing, [load] accepts the body and [save] succeeds, the check does
    exactly this, in this order: the request, [load] of the body of the
    response, [save] under [leap/providers/<domain>/eip-service.json], the
    notification [{"passed": True, "error": ""}]; it returns [True],
    [_eip_config] is the object [load] left and the file system is as
    [save] left it. *)
Theorem config_download_succeeds (s : State) (pc : ProviderConfig)
        (n1 : Net) (res : Response) (cfg1 : EIPConfig) (f1 : FS) :
  _provider_config (self s) = Some pc ->
  skips_config s pc = false ->
  session_get (config_url pc) (get_ca_cert_path pc) (net s) = (n1, inr res) ->
  raise_for_status res = None ->
  eip_load EIPConfig_new (content res) = (cfg1, None) ->
  eip_save cfg1 ["leap"; "providers"; get_domain pc; "eip-service.json"] (fs s)
  = (f1, None) ->
  _download_config s
  = mkOut (inr true)
          {| self := set_eip_config (Some cfg1) (self s); fs := f1; net := n1 |}
          [EvGet (config_url pc) (get_ca_cert_path pc);
           EvLoad (content res);
           EvSave ["leap"; "providers"; get_domain pc; "eip-service.json"];
           EvEmit download_config {| passed := true; error := "" |}].
Proof.
  destruct s as [[q sq opc ocfg flag] f n]; unfold skips_config;
    cbn [self fs net _provider_config _eip_config _download_if_needed].
  intros -> Hskip Hget Hst Hld Hsv.
  unfold_steps; unfold_m; use_answers; reflexivity.
Qed.

(** X2.  A certificate download that succeeds.  When
    [_download_client_certificates] has computed the path [p], does not
    skip, the request is answered, [raise_for_status] raises nothing,
    [os.makedirs] creates the directory of [p] and the write succeeds, the
    check does exactly this, in this order: the path computation, the
    request, [os.makedirs(os.path.dirname(p))], the write of the body of
    the response to [p], the notification [{"passed": True, "error": ""}];
    it returns [True] and leaves the object as it was. *)
Theorem cert_download_succeeds (s : State) (pc : ProviderConfig)
        (cfg : EIPConfig) (p : string) (n1 : Net) (res : Response) (f1 f2 : FS) :
  _provider_config (self s) = Some pc ->
  _eip_config (self s) = Some cfg ->
  get_client_cert_path cfg pc true (fs s) = inr p ->
  skips_cert s p = false ->
  session_get (cert_url pc) (get_ca_cert_path pc) (net s) = (n1, inr res) ->
  raise_for_status res = None ->
  os_makedirs (os_path_dirname p) (fs s) = (f1, None) ->
  write_file p (content res) f1 = (f2, None) ->
  _download_client_certificates s
  = mkOut (inr true)
          {| self := self s; fs := f2; net := n1 |}
          [EvCertPath cfg pc true;
           EvGet (cert_url pc) (get_ca_cert_path pc);
           EvMakedirs (os_path_dirname p);
           EvWrite p (content res);
           EvEmit download_client_certificate {| passed := true; error := "" |}].
Proof.
  destruct s as [[q sq opc ocfg flag] f n]; unfold skips_cert;
    cbn [self fs net _provider_config _eip_config _download_if_needed].
  intros -> -> Hp Hskip Hget Hst Hmk Hwr.
  unfold_steps; unfold_m; use_answers; reflexivity.
Qed.

(** X3.  The certificate is not downloaded again.  When
    [_download_if_needed] is set and the file at the computed path exists,
    [_download_client_certificates] computes the path, emits
    [{"passed": True, "error": ""}] and returns [True]: no request, no
    directory, no write, and the state is as before. *)
Theorem skip_cert_without_network (s : State) (pc : ProviderConfig)
        (cfg : EIPConfig) (p : string) :
  _provider_config (self s) = Some pc ->
  _eip_config (self s) = Some cfg ->
  get_client_cert_path cfg pc true (fs s) = inr p ->
  _download_if_needed (self s) = true ->
  os_path_exists (fs s) p = true ->
  _download_client_certificates s
  = mkOut (inr true) s
          [EvCertPath cfg pc true;
           EvEmit download_client_certificate {| passed := true; error := "" |}].
Proof.
  destruct s as [[q sq opc ocfg flag] f n];
    cbn [self fs net _provider_config _eip_config _download_if_needed].
  intros -> -> Hp -> Hex.
  unfold_steps; unfold_m; use_answers; reflexivity.
Qed.

(** X4.  No skip without the flag.  When [_download_if_needed] is not set,
    both checks go to the network whatever is on disk: the request is the
    first event of [_download_config], and the first event after the path
    computation of [_download_client_certificates]. *)
Theorem no_skip_without_flag (s : State) (pc : ProviderConfig) :
  _provider_config (self s) = Some pc ->
  _download_if_needed (self s) = false ->
  (exists t, events (_download_config s)
             = EvGet (config_url pc) (get_ca_cert_path pc) :: t)
  /\ (forall cfg p,
        _eip_config (self s) = Some cfg ->
        get_client_cert_path cfg pc true (fs s) = inr p ->
        exists t, events (_download_client_certificates s)
                  = EvCertPath cfg pc true
                    :: EvGet (cert_url pc) (get_ca_cert_path pc) :: t).
Proof.
  destruct s as [[q sq opc ocfg flag] f n];
    cbn [self fs net _provider_config _eip_config _download_if_needed].
  intros -> ->; split.
  - unfold_steps; unfold_m; cbn.
    repeat (next_case; cbn); eexists; reflexivity.
  - intros cfg p -> Hp.
    unfold_steps; unfold_m; use_answers.
    repeat (next_case; cbn); eexists; reflexivity.
Qed.

(** ** What the checks never do *)

(** Going through the events of a log that is known. *)
Ltac each_event Hin :=
  cbn in Hin;
  repeat match type of Hin with
         | _ \/ _ => destruct Hin as [Hin | Hin]
         | False => contradiction
         end.

(** X5.  Nothing is stored from a response that failed.  If a check loads
    data into the configuration, saves it, creates a directory or writes a
    file, then its request was answered and [raise_for_status] raised
    nothing on the response; and what is loaded or written is the body of
    that response. *)
Theorem stored_only_after_ok_status (c : Check) (s : State) (e : Event) :
  In e (events (exec c s)) ->
  is_persist e = true ->
  exists pc n1 res,
    _provider_config (self s) = Some pc
    /\ session_get (url_of c pc) (get_ca_cert_path pc) (net s) = (n1, inr res)
    /\ raise_for_status res = None
    /\ match e with
       | EvLoad d => d = content res
       | EvWrite _ d => d = content res
       | _ => True
       end.
Proof.
  destruct s as [[q sq [pc|] [cfg|] [|]] f n], c;
    unfold_steps; unfold_m; all_cases;
    intros Hin Hp; each_event Hin; subst e; try discriminate Hp;
    exists pc; do 2 eexists; cbn [url_of self net _provider_config];
    (split; [reflexivity|]); (split; [eassumption|]);
    (split; [eassumption|]); reflexivity.
Qed.

(** X6.  One request at most.  A call of a check makes at most one
    request. *)
Theorem at_most_one_request (c : Check) (s : State) :
  length (filter is_get (events (exec c s))) <= 1.
Proof.
  destruct s as [[q sq [pc|] [cfg|] [|]] f n], c;
    unfold_steps; unfold_m; all_cases; lia.
Qed.

(** X7.  The error of a notification.  A notification with
    [passed = True] has the empty string as [error]; one with
    [passed = False] has [str(e)] for the exception [e] that the handler of
    the check caught: an exception of class [Exception] raised by a call of
    the [try] block ([raised_in_try]).  [str(e)] may be the empty string. *)
Theorem error_of_notification (c : Check) (s : State) (sig : Signal)
        (d : CheckData) :
  In (EvEmit sig d) (events (exec c s)) ->
  (passed d = true -> error d = "")
  /\ (passed d = false ->
      exists e,
        is_Exception e = true
        /\ error d = exn_str e
        /\ raised_in_try c s e).
Proof.
  unfold raised_in_try.
  destruct s as [[q sq [pc|] [cfg|] [|]] f n], c;
    unfold_steps; unfold_m; all_cases;
    intros Hin; each_event Hin; try discriminate Hin;
    injection Hin as <- <-; cbn;
    (split; intros Hp; try discriminate Hp; try reflexivity);
    eexists;
    (refine (conj _ (conj eq_refl _));
     [ assumption
     | eexists; (split; [reflexivity|]); find_raise ]).
Qed.

(** X8.  What a check changes in the object.  [_download_client_certificates]
    changes no attribute of the object; [_download_config] changes
    [_eip_config] only.  After [_download_config] has returned, [True] or
    [False], both [_provider_config] and [_eip_config] are set: the two
    [assert]s of [_download_client_certificates] hold. *)
Theorem attributes_after_check (c : Check) (s : State) :
  self (final (exec c s))
  = set_eip_config (_eip_config (self (final (exec c s)))) (self s)
  /\ (c = DownloadClientCertificates -> self (final (exec c s)) = self s)
  /\ (forall b,
        c = DownloadConfig ->
        result (exec c s) = inr b ->
        exists pc cfg,
          _provider_config (self (final (exec c s))) = Some pc
          /\ _eip_config (self (final (exec c s))) = Some cfg).
Proof.
  destruct s as [[q sq [pc|] [cfg|] [|]] f n], c;
    unfold_steps; unfold_m; all_cases;
    (split; [reflexivity|]);
    (split; [intros; try discriminate; reflexivity|]);
    intros b Hc Hr; try discriminate; eauto.
Qed.

(** ** The notifications of a run *)

Lemma run_log_signals (q : list Check) (t : list Event) :
  run_log q t ->
  exists rest, map signal_of q = (map fst (emits_of t) ++ rest)%list.
Proof.
  induction 1 as [q|q|t H IH|c q w b t Hw Hs H IH|c q w Hw Hs].
  - eexists; reflexivity.
  - eexists; reflexivity.
  - exact IH.
  - destruct (reported_shape _ _ _ Hw Hs) as (work & d & -> & Hwork & Hd).
    rewrite emits_of_app, emits_of_check_round, emits_of_app,
      (emits_of_work _ Hwork); cbn.
    destruct b; cbn in *.
    + destruct IH as [rest ->]; eexists; reflexivity.
    + rewrite (emits_of_idle _ (run_log_nil_idle _ H)).
      eexists; reflexivity.
  - rewrite emits_of_aborted_round, (working_no_emit _ _ Hw Hs).
    eexists; reflexivity.
Qed.

Lemma run_log_failure_last (q : list Check) (t : list Event) :
  run_log q t -> failure_is_last (emits_of t) = true.
Proof.
  induction 1 as [q|q|t H IH|c q w b t Hw Hs H IH|c q w Hw Hs];
    try reflexivity.
  - exact IH.
  - destruct (reported_shape _ _ _ Hw Hs) as (work & d & -> & Hwork & Hd).
    rewrite emits_of_app, emits_of_check_round, emits_of_app,
      (emits_of_work _ Hwork); cbn [emits_of app].
    destruct b.
    + cbn [failure_is_last]; destruct (emits_of t); [reflexivity|].
      rewrite Hd; exact IH.
    + rewrite (emits_of_idle _ (run_log_nil_idle _ H)); reflexivity.
  - rewrite emits_of_aborted_round, (working_no_emit _ _ Hw Hs).
    reflexivity.
Qed.

Lemma run_idling (n : nat) (s : State) :
  _should_quit (self s) = false ->
  _checks (self s) = [] ->
  run n s = mkOut (inr StillRunning) s (concat (repeat idle_round n)).
Proof.
  intros Hq Hc; induction n as [|n IH]; [reflexivity|].
  rewrite (run_S_idle _ _ Hq Hc), IH; reflexivity.
Qed.

Lemma idle_rounds_are_idle (n : nat) :
  forallb is_idle (concat (repeat idle_round n)) = true.
Proof. induction n; [reflexivity | exact IHn]. Qed.

(** X9.  Notifications follow the queue.  In every run, the signals
    notified, in the order of their notifications, are the signals of the
    first checks of the queue, in the order of the queue.  The queue is
    never anything but an end part of
    [[_download_config; _download_client_certificates]]: it is one after
    [__init__] and after [run_eip_setup_checks], and a run from such a queue
    leaves such a queue.  From such a queue the signals notified in a run
    are a part of [[download_config; download_client_certificate]], in that
    order: [download_client_certificate] is never notified before
    [download_config], and none is notified twice. *)
Theorem notifications_in_queue_order (n : nat) (s : State) :
  (exists rest,
     map signal_of (_checks (self s))
     = (map fst (emits_of (events (run n s))) ++ rest)%list)
  /\ end_of_setup_queue (_checks init)
  /\ (forall pc flag,
        end_of_setup_queue
          (_checks (self (final (run_eip_setup_checks (PyProviderConfig pc)
                                                      flag s)))))
  /\ (end_of_setup_queue (_checks (self s)) ->
      end_of_setup_queue (_checks (self (final (run n s))))
      /\ exists before rest,
           [download_config; download_client_certificate]
           = (before ++ map fst (emits_of (events (run n s))) ++ rest)%list).
Proof.
  assert (Hpre : exists rest,
             map signal_of (_checks (self s))
             = (map fst (emits_of (events (run n s))) ++ rest)%list)
    by apply run_log_signals, run_has_log.
  repeat apply conj.
  - exact Hpre.
  - exists setup_queue; apply eq_sym, app_nil_r.
  - intros pc flag; exists []; destruct s as [b f nt]; reflexivity.
  - intros [gone Hq].
    destruct (run_leaves_end_of_queue n s) as [gone' Hleft].
    destruct Hpre as [rest Hrest].
    split.
    + exists (gone ++ gone')%list.
      rewrite <- app_assoc, <- Hleft; exact Hq.
    + exists (map signal_of gone), rest.
      rewrite <- Hrest, <- map_app, <- Hq; reflexivity.
Qed.

(** X10.  A failure is the last notification.  In every run, every
    notification but the last carries [passed = True]: whoever listens gets
    at most one failure, and nothing after it. *)
Theorem failure_notified_last (n : nat) (s : State) :
  failure_is_last (emits_of (events (run n s))) = true.
Proof. eapply run_log_failure_last, run_has_log. Qed.

(** ** The loop *)

(** X11.  Idling.  With an empty queue and [should_quit] not set, each
    round of [run] takes and releases the two locks, sleeps for
    [IDLE_SLEEP_INTERVAL] and changes nothing: no request, no file, no
    notification, however many rounds. *)
Theorem idle_rounds (n : nat) (s : State) :
  _should_quit (self s) = false ->
  _checks (self s) = [] ->
  run n s = mkOut (inr StillRunning) s (concat (repeat idle_round n)).
Proof. apply run_idling. Qed.

(** X12.  A run in which both checks pass.  When the first check of a
    queue of two returns [True] and the second returns [b], two rounds of
    [run] call both, in order; the run notifies the first signal with
    [passed = True], then the second with [passed = b]; the queue is then
    empty and [run] goes on idling. *)
Theorem run_of_two_checks (n : nat) (s : State) (c1 c2 : Check) (b : bool) :
  _should_quit (self s) = false ->
  _checks (self s) = [c1; c2] ->
  result (exec c1 (pop_state [c2] s)) = inr true ->
  result (exec c2 (pop_state [] (final (exec c1 (pop_state [c2] s))))) = inr b ->
  let o := run (S (S n)) s in
  result o = inr StillRunning
  /\ _checks (self (final o)) = []
  /\ calls_of (events o) = [c1; c2]
  /\ exists d1 d2,
       emits_of (events o) = [(signal_of c1, d1); (signal_of c2, d2)]
       /\ passed d1 = true
       /\ passed d2 = b.
Proof.
  intros Hq Hc Hr1 Hr2; cbv zeta.
  destruct (exec_reports _ _ _ Hr1) as (d1 & (_ & w1 & Hev1 & Hw1) & Hd1).
  destruct (exec_reports _ _ _ Hr2) as (d2 & (_ & w2 & Hev2 & Hw2) & Hd2).
  pose proof (exec_events c1 (pop_state [c2] s)) as Hof1.
  pose proof (exec_keeps c1 (pop_state [c2] s)) as (Hk1 & Hsq1 & _).
  rewrite (run_S_check _ _ _ _ Hq Hc).
  destruct (exec c1 (pop_state [c2] s)) as [[e|b1] s1 t1];
    cbn [result final events] in *; [discriminate|].
  injection Hr1 as ->.
  cbn [pop_state self set_checks _checks _should_quit] in Hk1, Hsq1.
  rewrite Hq in Hsq1.
  pose proof (exec_events c2 (pop_state [] s1)) as Hof2.
  pose proof (exec_keeps c2 (pop_state [] s1)) as (Hk2 & Hsq2 & _).
  rewrite (run_S_check _ _ _ _ Hsq1 Hk1).
  destruct (exec c2 (pop_state [] s1)) as [[e|b2] s2 t2];
    cbn [result final events] in *; [discriminate|].
  injection Hr2 as ->.
  cbn [pop_state self set_checks _checks _should_quit] in Hk2, Hsq2.
  rewrite Hsq1 in Hsq2.
  assert (Hempty : _checks (self (if b then s2 else pop_state [] s2)) = [])
    by (destruct b; [exact Hk2 | reflexivity]).
  assert (Hquit : _should_quit (self (if b then s2 else pop_state [] s2)) = false)
    by (destruct b; exact Hsq2).
  rewrite (run_idling n _ Hquit Hempty).
  cbn [result final events].
  repeat apply conj.
  - reflexivity.
  - exact Hempty.
  - rewrite !calls_of_app, (calls_of_check_round _ _ _ Hof1),
      (calls_of_check_round _ _ _ Hof2).
    rewrite (calls_of_idle _ (idle_rounds_are_idle n)); reflexivity.
  - exists d1, d2; repeat apply conj; auto.
    rewrite !emits_of_app, !emits_of_check_round, Hev1, Hev2.
    rewrite !emits_of_app, (emits_of_work _ Hw1), (emits_of_work _ Hw2).
    rewrite (emits_of_idle _ (idle_rounds_are_idle n)); reflexivity.
Qed.

(** ** Stopping, starting, configuring *)

(** X13.  Stopping.  [set_should_quit] sets the flag and nothing else; a
    [run] that then begins a round returns in that round, without taking
    the lock of the queue, without calling a check, and it leaves the
    checks that were pending in the queue. *)
Theorem stop_leaves_pending_checks (n : nat) (s : State) :
  set_should_quit s
  = mkOut (inr tt)
          {| self := set_quit true (self s); fs := fs s; net := net s |}
          [EvLock ShouldQuitLock; EvUnlock ShouldQuitLock]
  /\ run (S n) (final (set_should_quit s))
     = mkOut (inr Returned) (final (set_should_quit s)) round_start
  /\ _checks (self (final (run (S n) (final (set_should_quit s)))))
     = _checks (self s).
Proof.
  assert (Hstop : set_should_quit s
                  = mkOut (inr tt)
                          {| self := set_quit true (self s);
                             fs := fs s; net := net s |}
                          [EvLock ShouldQuitLock; EvUnlock ShouldQuitLock])
    by reflexivity.
  rewrite Hstop; cbn [final].
  rewrite run_S_quit by reflexivity.
  repeat apply conj; reflexivity.
Qed.

(** X14.  Starting again.  [start] resets the flag, under its lock, and
    nothing else: the checks that were pending when the worker was stopped
    are still in the queue, and the first round of the next [run] calls the
    first of them. *)
Theorem start_resumes_pending_checks (n : nat) (s : State) (c : Check)
        (rest : list Check) :
  _checks (self s) = c :: rest ->
  let s1 := final (start (final (set_should_quit s))) in
  start (final (set_should_quit s))
  = mkOut (inr tt)
          {| self := set_quit false (self s); fs := fs s; net := net s |}
          [EvLock ShouldQuitLock; EvUnlock ShouldQuitLock]
  /\ exists tl, calls_of (events (run (S n) s1)) = c :: tl.
Proof.
  intros Hc; cbv zeta.
  assert (Hstart : start (final (set_should_quit s))
                   = mkOut (inr tt)
                           {| self := set_quit false (self s);
                              fs := fs s; net := net s |}
                           [EvLock ShouldQuitLock; EvUnlock ShouldQuitLock])
    by reflexivity.
  rewrite Hstart; cbn [final]; split; [reflexivity|].
  rewrite (run_S_calls n _ c rest) by (cbn; auto).
  eexists; reflexivity.
Qed.

(** X15.  Only a [ProviderConfig] configures.  An object of another type
    makes [run_eip_setup_checks] raise [AssertionError], with the message
    of the first [assert] when the object is false and of the second when
    it is true, and nothing is changed: neither the provider, nor the flag,
    nor the queue. *)
Theorem setup_rejects_other_objects (truthy : bool) (type_repr : string)
        (flag : bool) (s : State) :
  run_eip_setup_checks (PyOther truthy type_repr) flag s
  = mkOut (inl (mkExn AssertionError None
                      (if truthy
                       then ("Expected ProviderConfig type, not " ++ type_repr)%string
                       else "We need a provider config!")))
          s [].
Proof.
  destruct s as [b f n], truthy; reflexivity.
Qed.

(** X16.  Configuring does not start.  [run_eip_setup_checks] with a
    [ProviderConfig] takes and releases the lock of the queue, sets the
    provider, the flag and the queue, and leaves [_should_quit] and
    [_eip_config] as they were.  So on a worker that was told to quit, a
    [run] still returns in its first round and the two checks stay in the
    queue until [start] is called. *)
Theorem setup_does_not_start (n : nat) (pc : ProviderConfig) (flag : bool)
        (s : State) :
  _should_quit (self s) = true ->
  let o := run_eip_setup_checks (PyProviderConfig pc) flag s in
  o = mkOut (inr tt)
            {| self := set_checks [DownloadConfig; DownloadClientCertificates]
                                  (set_provider pc flag (self s));
               fs := fs s; net := net s |}
            [EvLock ChecksLock; EvUnlock ChecksLock]
  /\ _eip_config (self (final o)) = _eip_config (self s)
  /\ run (S n) (final o) = mkOut (inr Returned) (final o) round_start.
Proof.
  intros Hq; cbv zeta.
  assert (Hsetup : run_eip_setup_checks (PyProviderConfig pc) flag s
                   = mkOut (inr tt)
                       {| self := set_checks
                                    [DownloadConfig; DownloadClientCertificates]
                                    (set_provider pc flag (self s));
                          fs := fs s; net := net s |}
                       [EvLock ChecksLock; EvUnlock ChecksLock])
    by reflexivity.
  rewrite Hsetup; cbn [final].
  repeat apply conj; try reflexivity.
  apply run_S_quit; exact Hq.
Qed.

(** ** Failures *)

(** X17.  A certificate download that fails early.  When the request of
    [_download_client_certificates] raises, or [raise_for_status] raises on
    its response, an exception of class [Exception], the check does the
    path computation and the request, notifies
    [{"passed": False, "error": str(e)}] and returns [False]; no directory
    is created, no file is written, and the object is as before. *)
Theorem cert_download_fails_early (s : State) (pc : ProviderConfig)
        (cfg : EIPConfig) (p : string) (e : exn) (n1 : Net) :
  _provider_config (self s) = Some pc ->
  _eip_config (self s) = Some cfg ->
  get_client_cert_path cfg pc true (fs s) = inr p ->
  skips_cert s p = false ->
  is_Exception e = true ->
  session_get (cert_url pc) (get_ca_cert_path pc) (net s) = (n1, inl e)
  \/ (exists res,
        session_get (cert_url pc) (get_ca_cert_path pc) (net s) = (n1, inr res)
        /\ raise_for_status res = Some e) ->
  _download_client_certificates s
  = mkOut (inr false)
          {| self := self s; fs := fs s; net := n1 |}
          [EvCertPath cfg pc true;
           EvGet (cert_url pc) (get_ca_cert_path pc);
           EvEmit download_client_certificate
                  {| passed := false; error := exn_str e |}].
Proof.
  destruct s as [[q sq opc ocfg flag] f n]; unfold skips_cert;
    cbn [self fs net _provider_config _eip_config _download_if_needed].
  intros -> -> Hp Hskip He [Hget | (res & Hget & Hst)];
    unfold_steps; unfold_m; use_answers; reflexivity.
Qed.

(** X18.  [run] only removes checks.  Whatever happens in a run, the queue
    it leaves is an end part of the queue it found: [run] puts no check in
    the queue and does not reorder it. *)
Theorem run_only_removes_checks (n : nat) (s : State) :
  exists gone,
    _checks (self s) = (gone ++ _checks (self (final (run n s))))%list.
Proof.
  revert s; induction n as [|n IH]; intros s.
  - exists []; reflexivity.
  - destruct (_should_quit (self s)) eqn:Hq.
    + rewrite (run_S_quit _ _ Hq); exists []; reflexivity.
    + destruct (_checks (self s)) as [|c rest] eqn:Hc.
      * rewrite (run_S_idle _ _ Hq Hc).
        destruct (IH s) as [gone Hgone]; rewrite Hc in Hgone.
        destruct (run n s) as [r s2 t']; cbn [final] in *.
        exists gone; exact Hgone.
      * rewrite (run_S_check _ _ _ _ Hq Hc).
        pose proof (exec_keeps c (pop_state rest s)) as (Hk & _).
        destruct (exec c (pop_state rest s)) as [[e|b] s1 t];
          cbn [final pop_state self set_checks _checks] in *.
        -- exists [c]; rewrite Hk; reflexivity.
        -- destruct (IH (if b then s1 else pop_state [] s1)) as [gone Hgone].
           destruct (run n _) as [r s2 t']; cbn [final] in *.
           destruct b; cbn [pop_state self set_checks _checks] in Hgone.
           ++ exists (c :: gone); rewrite <- Hk, Hgone; reflexivity.
           ++ apply eq_sym, app_eq_nil in Hgone as [_ ->].
              exists (c :: rest); rewrite app_nil_r; reflexivity.
Qed.


End Properties.

(** * Tests on the test double *)

Example format_config_url :
  format "%s/%s/%s/%s"
         ["https://api.example.org:4430"; "1"; "config"; "eip-service.json"]
  = "https://api.example.org:4430/1/config/eip-service.json".
Proof. reflexivity. Qed.

Example join_relative :
  os_path_join "/home/u/.config"
               ["leap"; "providers"; "example.org"; "eip-service.json"]
  = "/home/u/.config/leap/providers/example.org/eip-service.json".
Proof. reflexivity. Qed.

Example join_absolute_component :
  os_path_join "/home/u/.config" ["leap"; "/etc"; "x"] = "/etc/x".
Proof. reflexivity. Qed.

Example dirname_nested : os_path_dirname Mock.cert_file = Mock.cert_dir.
Proof. reflexivity. Qed.

Example dirname_root : os_path_dirname "/x" = "/".
Proof. reflexivity. Qed.

Example dirname_plain : os_path_dirname "x" = "".
Proof. reflexivity. Qed.

(** Both downloads succeed: two notifications in order, both files written. *)
Example both_served_run :
  emits_of (events (run 3 Mock.both_served))
  = [(download_config, {| passed := true; error := "" |});
     (download_client_certificate, {| passed := true; error := "" |})]
  /\ fs (final (run 3 Mock.both_served))
     = [(Mock.cert_file, Some "CERT"); (Mock.cert_dir, None);
        (Mock.config_file, Some "{}")].
Proof. split; reflexivity. Qed.

(** 404 on the configuration: one failed notification, nothing written. *)
Example config_not_found_run :
  emits_of (events (run 3 Mock.config_not_found))
  = [(download_config, {| passed := false; error := "HTTP error" |})]
  /\ fs (final (run 3 Mock.config_not_found)) = [].
Proof. split; reflexivity. Qed.

(** ** The claims at concrete inputs *)

(** C1 at a run whose configuration download is answered with 404. *)
Lemma halt_on_failure_witness :
  _should_quit (self Mock.config_not_found) = false
  /\ _checks (self Mock.config_not_found)
     = [DownloadConfig; DownloadClientCertificates]
  /\ result (exec DownloadConfig
                  (pop_state [DownloadClientCertificates] Mock.config_not_found))
     = inr false
  /\ calls_of (events (run 3 Mock.config_not_found)) = [DownloadConfig]
  /\ (forall d, ~ In (EvEmit download_client_certificate d)
                     (events (run 3 Mock.config_not_found))).
Proof.
  pose proof (halt_on_failure 2 Mock.config_not_found DownloadConfig
                [DownloadClientCertificates] eq_refl eq_refl eq_refl)
    as (_ & _ & _ & Hcalls & _ & _ & Hno).
  split; [reflexivity|].
  split; [reflexivity|].
  split; [reflexivity|].
  split; [exact Hcalls | exact (Hno eq_refl)].
Defined.

(** C2 at a state where the configuration is on disk. *)
Lemma skip_config_without_network_witness :
  _provider_config (self Mock.config_on_disk) = Some Mock.provider
  /\ _download_if_needed (self Mock.config_on_disk) = true
  /\ os_path_exists (fs Mock.config_on_disk)
       (os_path_join (get_path_prefix (@EIPConfig_new (Mock.world None)))
          ["leap"; "providers"; get_domain Mock.provider; "eip-service.json"])
     = true
  /\ result (_download_config Mock.config_on_disk) = inr true
  /\ events (_download_config Mock.config_on_disk)
     = [EvEmit download_config {| passed := true; error := "" |}].
Proof.
  pose proof (skip_config_without_network Mock.config_on_disk Mock.provider
                eq_refl eq_refl eq_refl) as (Hr & He & _).
  split; [reflexivity|].
  split; [reflexivity|].
  split; [reflexivity|].
  split; [exact Hr | exact He].
Defined.

(** C3 as stated fails: when the path computation raises, the exception is
    raised to the caller of the check and nothing is emitted. *)
Lemma path_exception_escapes :
  @get_client_cert_path (Mock.world (Some Mock.path_error))
    (Some "{}") Mock.provider true (fs Mock.cert_path_fails)
  = inl Mock.path_error
  /\ is_Exception Mock.path_error = true
  /\ result (_download_client_certificates Mock.cert_path_fails)
     = inl Mock.path_error
  /\ emits_of (events (_download_client_certificates Mock.cert_path_fails)) = []
  /\ ~ (exists d, reports (_download_client_certificates Mock.cert_path_fails)
                          download_client_certificate d).
Proof.
  split; [reflexivity|].
  split; [reflexivity|].
  split; [reflexivity|].
  split; [reflexivity|].
  intros (d & Hr & _); discriminate Hr.
Qed.

(** C3 as amended, at a certificate download answered with 404. *)
Lemma cert_exceptions_reported_witness :
  _provider_config (self Mock.cert_not_found) = Some Mock.provider
  /\ _eip_config (self Mock.cert_not_found) = Some (Some "{}")
  /\ @get_client_cert_path (Mock.world None)
       (Some "{}") Mock.provider true (fs Mock.cert_not_found)
     = inr Mock.cert_file
  /\ skips_cert Mock.cert_not_found Mock.cert_file = false
  /\ reports (_download_client_certificates Mock.cert_not_found)
             download_client_certificate
             {| passed := false; error := "HTTP error" |}.
Proof.
  pose proof (cert_exceptions_reported Mock.cert_not_found Mock.provider
                (Some "{}") eq_refl eq_refl) as (_ & Hpath).
  destruct (Hpath Mock.cert_file eq_refl) as (_ & Htry).
  destruct (Htry eq_refl) as (_ & Hstatus & _).
  split; [reflexivity|].
  split; [reflexivity|].
  split; [reflexivity|].
  split; [reflexivity|].
  exact (Hstatus [] {| status_code := 404; content := "" |}
                 (mkExn HTTPError None "HTTP error") eq_refl eq_refl eq_refl).
Defined.

(** The tolerated case of C3: the directory is there already. *)
Example cert_dir_there_run :
  @os_makedirs (Mock.world None) Mock.cert_dir (fs Mock.cert_dir_there)
  = (fs Mock.cert_dir_there,
     Some (mkExn OSError (Some EEXIST)
                 "[Errno 17] File exists: '/home/user/.config/leap/providers/example.org/keys/client'"))
  /\ result (_download_client_certificates Mock.cert_dir_there) = inr true
  /\ fs (final (_download_client_certificates Mock.cert_dir_there))
     = [(Mock.cert_file, Some "CERT"); (Mock.cert_dir, None)].
Proof. repeat split. Qed.

(** C4 as stated fails: after a failed download [_eip_config] is not what
    it was before the check. *)
Lemma failed_config_changes_eip_config :
  reports (_download_config Mock.config_not_found) download_config
          {| passed := false; error := "HTTP error" |}
  /\ _eip_config (self Mock.config_not_found) = None
  /\ _eip_config (self (final (_download_config Mock.config_not_found)))
     = Some (@EIPConfig_new (Mock.world None))
  /\ self (final (_download_config Mock.config_not_found))
     <> self Mock.config_not_found.
Proof.
  split.
  - split; [reflexivity|].
    exists [EvGet "https://api.example.org:4430/1/config/eip-service.json"
                  "/home/user/.config/leap/providers/example.org/keys/ca/cacert.pem"].
    split; reflexivity.
  - split; [reflexivity|].
    split; [reflexivity|].
    intros H; apply (f_equal _eip_config) in H; discriminate H.
Qed.

(** C4 as amended, at a configuration download answered with 404. *)
Lemma config_exceptions_reported_witness :
  _provider_config (self Mock.config_not_found) = Some Mock.provider
  /\ skips_config Mock.config_not_found Mock.provider = false
  /\ reports (_download_config Mock.config_not_found) download_config
             {| passed := false; error := "HTTP error" |}
  /\ fs (final (_download_config Mock.config_not_found))
     = fs Mock.config_not_found.
Proof.
  pose proof (config_exceptions_reported Mock.config_not_found Mock.provider
                eq_refl eq_refl) as (_ & Hstatus & _).
  split; [reflexivity|].
  split; [reflexivity|].
  destruct (Hstatus [Mock.ok_response "CERT"]
                    {| status_code := 404; content := "" |}
                    (mkExn HTTPError None "HTTP error") eq_refl eq_refl eq_refl)
    as (Hrep & Hfs & _).
  split; [exact Hrep | exact Hfs].
Defined.

(** C5 as stated fails: a run in which the configuration is served and the
    path computation of the certificate raises calls both checks and
    delivers one notification; the certificate check was executed and
    notified nothing. *)
Lemma called_check_without_notification :
  calls_of (events (run 3 Mock.cert_path_fails))
  = [DownloadConfig; DownloadClientCertificates]
  /\ emits_of (events (run 3 Mock.cert_path_fails))
     = [(download_config, {| passed := true; error := "" |})]
  /\ result (run 3 Mock.cert_path_fails) = inl Mock.path_error.
Proof. repeat split. Qed.

(** C5 as amended, at a configuration download answered with 200 and at
    the run of both downloads. *)
Lemma one_notification_per_check_witness :
  result (exec DownloadConfig Mock.both_served) = inr true
  /\ (exists d, reports (exec DownloadConfig Mock.both_served) download_config d
                /\ passed d = true)
  /\ delivery_ok (events (run 3 Mock.both_served)) = true
  /\ map fst (emits_of (events (run 3 Mock.both_served)))
     = [download_config; download_client_certificate].
Proof.
  pose proof (one_notification_per_check DownloadConfig Mock.both_served)
    as (Hret & _ & Hrun).
  destruct (Hret true eq_refl) as (d & Hrep & Hd & _).
  destruct (Hrun 3) as (Hok & Hmatch).
  split; [reflexivity|].
  split; [exists d; split; [exact Hrep | exact Hd]|].
  split; [exact Hok | exact Hmatch].
Defined.


(** C7 at [None] and at a bootstrapper that was never configured. *)
Lemma preconditions_fail_fast_witness :
  truth PyNone = false
  /\ _provider_config (self Mock.unconfigured) = None
  /\ (exists e, run_eip_setup_checks PyNone false Mock.unconfigured
                = mkOut (inl e) Mock.unconfigured []
                /\ exn_class e = AssertionError)
  /\ (exists e, _download_client_certificates Mock.unconfigured
                = mkOut (inl e) Mock.unconfigured []
                /\ exn_class e = AssertionError).
Proof.
  pose proof (preconditions_fail_fast PyNone false Mock.unconfigured)
    as (Hrun & Hcert).
  split; [reflexivity|].
  split; [reflexivity|].
  split; [exact (Hrun eq_refl) | exact (Hcert (or_introl eq_refl))].
Defined.

(** C8 as stated fails: [raise_for_status] of [requests] raises for the
    statuses 400 to 599 only; a certificate answered with 304, which is not
    2xx, is written and reported as passed. *)
Lemma not_modified_certificate_passes :
  session_get (cert_url Mock.provider) (get_ca_cert_path Mock.provider)
              (net Mock.cert_not_modified)
  = ([], inr {| status_code := 304; content := "" |})
  /\ ~ (200 <= 304 < 300)%Z
  /\ result (_download_client_certificates Mock.cert_not_modified) = inr true
  /\ emits_of (events (_download_client_certificates Mock.cert_not_modified))
     = [(download_client_certificate, {| passed := true; error := "" |})]
  /\ fs (final (_download_client_certificates Mock.cert_not_modified))
     = [(Mock.cert_file, Some ""); (Mock.cert_dir, None)].
Proof.
  split; [reflexivity|].
  split; [lia|].
  repeat split.
Qed.

(** C8 as amended, at a configuration download answered with 404. *)
Lemma requests_and_status_witness :
  _provider_config (self Mock.config_not_found) = Some Mock.provider
  /\ (exists t, events (_download_config Mock.config_not_found)
                = EvGet "https://api.example.org:4430/1/config/eip-service.json"
                        (get_ca_cert_path Mock.provider) :: t)
  /\ reports (_download_config Mock.config_not_found) download_config
             {| passed := false; error := "HTTP error" |}.
Proof.
  pose proof (requests_and_status Mock.config_not_found Mock.provider eq_refl)
    as (_ & Hconfig & _).
  destruct (Hconfig eq_refl) as (Hget & Hraise & _).
  split; [reflexivity|].
  split; [exact Hget|].
  exact (Hraise [Mock.ok_response "CERT"]
                {| status_code := 404; content := "" |}
                (mkExn HTTPError None "HTTP error") eq_refl eq_refl eq_refl).
Defined.



(** C10 at a state where the configuration is on disk. *)
Lemma skip_leaves_default_config_witness :
  _provider_config (self Mock.config_on_disk) = Some Mock.provider
  /\ _download_if_needed (self Mock.config_on_disk) = true
  /\ os_path_exists (fs Mock.config_on_disk)
       (os_path_join (get_path_prefix (@EIPConfig_new (Mock.world None)))
          ["leap"; "providers"; get_domain Mock.provider; "eip-service.json"])
     = true
  /\ _eip_config (self (final (_download_config Mock.config_on_disk)))
     = Some (@EIPConfig_new (Mock.world None))
  /\ (exists t,
        events (_download_client_certificates
                  (final (_download_config Mock.config_on_disk)))
        = EvCertPath (@EIPConfig_new (Mock.world None)) Mock.provider true :: t).
Proof.
  pose proof (skip_leaves_default_config Mock.config_on_disk Mock.provider
                eq_refl eq_refl eq_refl) as (Hcfg & _ & Hpath & _).
  split; [reflexivity|].
  split; [reflexivity|].
  split; [reflexivity|].
  split; [exact Hcfg | exact Hpath].
Defined.

(** ** The further properties at concrete inputs *)

(** X1 at a configuration download answered with 200. *)
Lemma config_download_succeeds_witness :
  _provider_config (self Mock.both_served) = Some Mock.provider
  /\ skips_config Mock.both_served Mock.provider = false
  /\ result (_download_config Mock.both_served) = inr true
  /\ fs (final (_download_config Mock.both_served))
     = [(Mock.config_file, Some "{}")].
Proof.
  pose proof (config_download_succeeds Mock.both_served Mock.provider
                [Mock.ok_response "CERT"]
                {| status_code := 200; content := "{}" |}
                (Some "{}") [(Mock.config_file, Some "{}")]
                eq_refl eq_refl eq_refl eq_refl eq_refl eq_refl) as H.
  split; [reflexivity|].
  split; [reflexivity|].
  rewrite H; split; reflexivity.
Defined.

(** X2 at a certificate download answered with 200. *)
Lemma cert_download_succeeds_witness :
  _provider_config (self Mock.cert_served) = Some Mock.provider
  /\ _eip_config (self Mock.cert_served) = Some (Some "{}")
  /\ skips_cert Mock.cert_served Mock.cert_file = false
  /\ result (_download_client_certificates Mock.cert_served) = inr true
  /\ fs (final (_download_client_certificates Mock.cert_served))
     = [(Mock.cert_file, Some "CERT"); (Mock.cert_dir, None)].
Proof.
  pose proof (cert_download_succeeds Mock.cert_served Mock.provider
                (Some "{}") Mock.cert_file []
                {| status_code := 200; content := "CERT" |}
                [(Mock.cert_dir, None)]
                [(Mock.cert_file, Some "CERT"); (Mock.cert_dir, None)]
                eq_refl eq_refl eq_refl eq_refl eq_refl eq_refl eq_refl eq_refl)
    as H.
  split; [reflexivity|].
  split; [reflexivity|].
  split; [reflexivity|].
  rewrite H; split; reflexivity.
Defined.

(** X3 at a state where the certificate is on disk. *)
Lemma skip_cert_without_network_witness :
  _download_if_needed (self Mock.cert_on_disk) = true
  /\ os_path_exists (fs Mock.cert_on_disk) Mock.cert_file = true
  /\ events (_download_client_certificates Mock.cert_on_disk)
     = [@EvCertPath (Mock.world None) (Some "{}") Mock.provider true;
        EvEmit download_client_certificate {| passed := true; error := "" |}].
Proof.
  pose proof (skip_cert_without_network Mock.cert_on_disk Mock.provider
                (Some "{}") Mock.cert_file
                eq_refl eq_refl eq_refl eq_refl eq_refl) as H.
  split; [reflexivity|].
  split; [reflexivity|].
  rewrite H; reflexivity.
Defined.

(** X4 at a bootstrapper configured without the flag. *)
Lemma no_skip_without_flag_witness :
  _provider_config (self Mock.both_served) = Some Mock.provider
  /\ _download_if_needed (self Mock.both_served) = false
  /\ exists t, events (_download_config Mock.both_served)
               = EvGet (config_url Mock.provider)
                       (get_ca_cert_path Mock.provider) :: t.
Proof.
  pose proof (no_skip_without_flag Mock.both_served Mock.provider
                eq_refl eq_refl) as (H & _).
  split; [reflexivity|].
  split; [reflexivity | exact H].
Defined.

(** X5 at the [load] of a configuration download answered with 200. *)
Lemma stored_only_after_ok_status_witness :
  In (EvLoad "{}") (events (exec DownloadConfig Mock.both_served))
  /\ is_persist (@EvLoad (Mock.world None) "{}") = true
  /\ exists pc (n1 : @Net (Mock.world None)) res,
       _provider_config (self Mock.both_served) = Some pc
       /\ session_get (url_of DownloadConfig pc) (get_ca_cert_path pc)
                      (net Mock.both_served) = (n1, inr res)
       /\ @raise_for_status (Mock.world None) res = None
       /\ "{}" = content res.
Proof.
  assert (Hin : In (EvLoad "{}") (events (exec DownloadConfig Mock.both_served)))
    by (right; left; reflexivity).
  split; [exact Hin|].
  split; [reflexivity|].
  exact (stored_only_after_ok_status DownloadConfig Mock.both_served
           (EvLoad "{}") Hin eq_refl).
Defined.

(** X7 at the notification of a configuration download answered with 404. *)
Lemma error_of_notification_witness :
  In (EvEmit download_config {| passed := false; error := "HTTP error" |})
     (events (exec DownloadConfig Mock.config_not_found))
  /\ exists e, is_Exception e = true
               /\ "HTTP error" = exn_str e
               /\ raised_in_try DownloadConfig Mock.config_not_found e.
Proof.
  assert (Hin : In (EvEmit download_config
                           {| passed := false; error := "HTTP error" |})
                   (events (exec DownloadConfig Mock.config_not_found)))
    by (right; left; reflexivity).
  split; [exact Hin|].
  exact (proj2 (error_of_notification DownloadConfig Mock.config_not_found
                  download_config _ Hin) eq_refl).
Defined.

(** X8 at a configuration download answered with 200. *)
Lemma attributes_after_check_witness :
  result (exec DownloadConfig Mock.both_served) = inr true
  /\ exists pc cfg,
       _provider_config (self (final (exec DownloadConfig Mock.both_served)))
       = Some pc
       /\ _eip_config (self (final (exec DownloadConfig Mock.both_served)))
          = Some cfg.
Proof.
  pose proof (attributes_after_check DownloadConfig Mock.both_served)
    as (_ & _ & H).
  split; [reflexivity | exact (H true eq_refl eq_refl)].
Defined.

(** X9 at the run of both downloads, from the queue as it is set. *)
Lemma notifications_in_queue_order_witness :
  end_of_setup_queue (_checks (self Mock.both_served))
  /\ end_of_setup_queue (_checks (self (final (run 3 Mock.both_served))))
  /\ exists before rest,
       [download_config; download_client_certificate]
       = (before ++ map fst (emits_of (events (run 3 Mock.both_served)))
                 ++ rest)%list.
Proof.
  assert (Hq : end_of_setup_queue (_checks (self Mock.both_served)))
    by (exists []; reflexivity).
  pose proof (notifications_in_queue_order 3 Mock.both_served)
    as (_ & _ & _ & H).
  destruct (H Hq) as (Hleft & Hsig).
  split; [exact Hq|].
  split; [exact Hleft | exact Hsig].
Defined.

(** X11 at a bootstrapper that was never configured. *)
Lemma idle_rounds_witness :
  _should_quit (self Mock.unconfigured) = false
  /\ _checks (self Mock.unconfigured) = []
  /\ run 3 Mock.unconfigured
     = mkOut (inr StillRunning) Mock.unconfigured
             (idle_round ++ idle_round ++ idle_round).
Proof.
  pose proof (idle_rounds 3 Mock.unconfigured eq_refl eq_refl) as H.
  split; [reflexivity|].
  split; [reflexivity | exact H].
Defined.

(** X12 at a run in which both downloads are answered with 200. *)
Lemma run_of_two_checks_witness :
  _should_quit (self Mock.both_served) = false
  /\ _checks (self Mock.both_served)
     = [DownloadConfig; DownloadClientCertificates]
  /\ result (exec DownloadConfig
                  (pop_state [DownloadClientCertificates] Mock.both_served))
     = inr true
  /\ result (exec DownloadClientCertificates
                  (pop_state []
                     (final (exec DownloadConfig
                               (pop_state [DownloadClientCertificates]
                                          Mock.both_served)))))
     = inr true
  /\ calls_of (events (run 3 Mock.both_served))
     = [DownloadConfig; DownloadClientCertificates].
Proof.
  pose proof (run_of_two_checks 1 Mock.both_served DownloadConfig
                DownloadClientCertificates true
                eq_refl eq_refl eq_refl eq_refl) as (_ & _ & H & _).
  split; [reflexivity|].
  split; [reflexivity|].
  split; [reflexivity|].
  split; [reflexivity | exact H].
Defined.

(** X14 at a worker stopped before it ran its two checks. *)
Lemma start_resumes_pending_checks_witness :
  _checks (self Mock.both_served)
  = [DownloadConfig; DownloadClientCertificates]
  /\ exists tl,
       calls_of (events (run 1 (final (start (final (set_should_quit
                                                       Mock.both_served))))))
       = DownloadConfig :: tl.
Proof.
  pose proof (start_resumes_pending_checks 0 Mock.both_served DownloadConfig
                [DownloadClientCertificates] eq_refl) as (_ & H).
  split; [reflexivity | exact H].
Defined.

(** X16 at a worker that was told to quit. *)
Lemma setup_does_not_start_witness :
  _should_quit (self Mock.stopped) = true
  /\ result (run 2 (final (run_eip_setup_checks
                             (PyProviderConfig Mock.provider) true Mock.stopped)))
     = inr Returned.
Proof.
  pose proof (setup_does_not_start 1 Mock.provider true Mock.stopped eq_refl)
    as (_ & _ & H).
  split; [reflexivity|].
  rewrite H; reflexivity.
Defined.

(** X17 at a certificate download answered with 404. *)
Lemma cert_download_fails_early_witness :
  skips_cert Mock.cert_not_found Mock.cert_file = false
  /\ is_Exception (mkExn HTTPError None "HTTP error") = true
  /\ result (_download_client_certificates Mock.cert_not_found) = inr false
  /\ fs (final (_download_client_certificates Mock.cert_not_found))
     = fs Mock.cert_not_found.
Proof.
  pose proof (cert_download_fails_early Mock.cert_not_found Mock.provider
                (Some "{}") Mock.cert_file (mkExn HTTPError None "HTTP error") []
                eq_refl eq_refl eq_refl eq_refl eq_refl
                (or_intror (ex_intro _ {| status_code := 404; content := "" |}
                                     (conj eq_refl eq_refl)))) as H.
  split; [reflexivity|].
  split; [reflexivity|].
  rewrite H; split; reflexivity.
Defined.

